(** * Buttons: an interrupt-driven debounced button registry (Arduino)

    Shallow embedding of [buttons.cpp] / [Buttons.h].  The class is
    static-only, so its four static members form one record; the Arduino
    core it talks to ([digitalRead], [millis], [pinMode], [delay],
    [attachInterrupt], [detachInterrupt], [new], [delete]) is a second
    record.  Every member function is a computation in a state monad over
    both, with [None] standing for C++ undefined behaviour (an access
    through a null or freed pointer, or past the end of an array).

    Where Buttons.h and buttons.cpp disagree (the header declares counts
    and ids as [byte], the implementation as [size_t]) the implementation
    is followed.  Counts and indices are [nat]: the only arithmetic on
    them is the loop counter, which stays below the count.  The handler
    and the main line are run one after the other; preemption of the
    main line by the handler is outside this model. *)

From Stdlib Require Import ZArith List Bool Lia.
Import ListNotations.

(** ** Machine types *)

(** [byte] is Arduino's [uint8_t]; here it only names pins. *)
Definition byte := Z.

(** [unsigned long] is 32 bits wide on the Arduino cores; arithmetic on
    it wraps modulo [2^32]. *)
Definition ULONG_BITS : Z := 32.
Definition ULONG_MODULUS : Z := 2 ^ ULONG_BITS.
Definition wrap (z : Z) : Z := (z mod ULONG_MODULUS)%Z.
Definition ulong_add (a b : Z) : Z := wrap (a + b).

(** A C++ pointer to an array: null, pointing to live storage, or left
    dangling by [delete[]]. *)
Inductive ptr (A : Type) : Type :=
| nullptr : ptr A
| live (cells : list A) : ptr A
| dangling : ptr A.
Arguments nullptr {A}.
Arguments live {A} cells.
Arguments dangling {A}.

Definition is_null {A} (p : ptr A) : bool :=
  match p with nullptr => true | _ => false end.

(** ** Buttons.h *)

(** [static unsigned long DEBOUNCE_DELAY = 50;] *)
Definition DEBOUNCE_DELAY : Z := 50.

(** [struct Button] *)
Record Button : Type := mkButton {
  currentState : bool;
  changeFlag : bool;
  lastChangeTime : Z
}.

(** [Button() : currentState(false), changeFlag(false), lastChangeTime(0)] *)
Definition Button_ctor : Button := mkButton false false 0.

Definition set_currentState (v : bool) (b : Button) : Button :=
  mkButton v (changeFlag b) (lastChangeTime b).
Definition set_changeFlag (v : bool) (b : Button) : Button :=
  mkButton (currentState b) v (lastChangeTime b).
Definition set_lastChangeTime (v : Z) (b : Button) : Button :=
  mkButton (currentState b) (changeFlag b) v.

(** The static data members of [class Buttons]. *)
Record Statics : Type := mkStatics {
  _numberOfButtons : nat;
  _buttonPins : ptr byte;
  _buttonStatus : ptr Button;
  _begun : bool
}.

(** Their initialisers at the top of buttons.cpp. *)
Definition statics_init : Statics := mkStatics 0 nullptr nullptr false.

(** ** The Arduino core

    The environment is observed, not computed: the level of a pin, the
    uptime and the outcome of an allocation are given per observation,
    [hw_tick] counting the observations made so far, so that two reads
    of the same pin or of the clock need not agree.  [uptime_ms] is the
    true number of milliseconds since reset; [millis()] returns it
    truncated to an [unsigned long]. *)
Record Hardware : Type := mkHardware {
  hw_tick : nat;
  pin_level : nat -> byte -> bool;       (* true = HIGH *)
  uptime_ms : nat -> Z;
  heap_grants : nat -> bool;             (* does this [new] succeed? *)
  digitalPinToInterrupt : byte -> Z;
  pullup_pins : list byte;               (* pins set to INPUT_PULLUP *)
  isr_attached : list Z                  (* interrupts bound to button_ISR, CHANGE *)
}.

Record World : Type := mkWorld {
  statics : Statics;
  board : Hardware
}.

Definition tick_board (h : Hardware) : Hardware :=
  mkHardware (S (hw_tick h)) (pin_level h) (uptime_ms h) (heap_grants h)
             (digitalPinToInterrupt h) (pullup_pins h) (isr_attached h).
Definition set_pullup_pins (l : list byte) (h : Hardware) : Hardware :=
  mkHardware (hw_tick h) (pin_level h) (uptime_ms h) (heap_grants h)
             (digitalPinToInterrupt h) l (isr_attached h).
Definition set_isr_attached (l : list Z) (h : Hardware) : Hardware :=
  mkHardware (hw_tick h) (pin_level h) (uptime_ms h) (heap_grants h)
             (digitalPinToInterrupt h) (pullup_pins h) l.

(** ** The monad: state over [World], failure for undefined behaviour *)

Definition M (A : Type) : Type := World -> option (A * World).

Definition ret {A} (a : A) : M A := fun w => Some (a, w).
Definition undefined {A} : M A := fun _ => None.
Definition bind {A B} (c : M A) (k : A -> M B) : M B :=
  fun w => match c w with
           | Some (a, w') => k a w'
           | None => None
           end.

Declare Scope cpp_scope.
Delimit Scope cpp_scope with cpp.
Notation "x <- c ;; k" := (bind c (fun x => k))
  (at level 61, c at next level, right associativity) : cpp_scope.
Notation "c ;; k" := (bind c (fun _ => k))
  (at level 61, right associativity) : cpp_scope.
Open Scope cpp_scope.

(** [for (size_t i = 0; i < n; i++) body(i);] *)
Fixpoint for_from (i count : nat) (body : nat -> M unit) : M unit :=
  match count with
  | O => ret tt
  | S count' => body i ;; for_from (S i) count' body
  end.
Definition for_upto (n : nat) (body : nat -> M unit) : M unit :=
  for_from 0 n body.

(** [if (c) stmt;] *)
Definition when (c : bool) (stmt : M unit) : M unit :=
  if c then stmt else ret tt.

(** *** Access to the static members *)

Definition load {A} (field : Statics -> A) : M A :=
  fun w => Some (field (statics w), w).
Definition modify_statics (f : Statics -> Statics) : M unit :=
  fun w => Some (tt, mkWorld (f (statics w)) (board w)).
Definition modify_board (f : Hardware -> Hardware) : M unit :=
  fun w => Some (tt, mkWorld (statics w) (f (board w))).

Definition store_numberOfButtons (n : nat) : M unit :=
  modify_statics (fun s => mkStatics n (_buttonPins s) (_buttonStatus s) (_begun s)).
Definition store_buttonPins (p : ptr byte) : M unit :=
  modify_statics (fun s => mkStatics (_numberOfButtons s) p (_buttonStatus s) (_begun s)).
Definition store_buttonStatus (p : ptr Button) : M unit :=
  modify_statics (fun s => mkStatics (_numberOfButtons s) (_buttonPins s) p (_begun s)).
Definition store_begun (b : bool) : M unit :=
  modify_statics (fun s => mkStatics (_numberOfButtons s) (_buttonPins s) (_buttonStatus s) b).

(** [a[i] = v] on a list: [None] when [i] is past the end. *)
Fixpoint list_store {A} (i : nat) (v : A) (l : list A) : option (list A) :=
  match l, i with
  | [], _ => None
  | _ :: t, O => Some (v :: t)
  | h :: t, S i' => match list_store i' v t with
                    | Some t' => Some (h :: t')
                    | None => None
                    end
  end.

(** Reading [p[i]]. *)
Definition deref {A} (p : ptr A) (i : nat) : option A :=
  match p with
  | live cells => nth_error cells i
  | _ => None
  end.

(** Writing [p[i]]. *)
Definition assign {A} (p : ptr A) (i : nat) (v : A) : option (ptr A) :=
  match p with
  | live cells => option_map live (list_store i v cells)
  | _ => None
  end.

(** [_buttonStatus[i]] as an rvalue. *)
Definition status_at (i : nat) : M Button :=
  fun w => match deref (_buttonStatus (statics w)) i with
           | Some e => Some (e, w)
           | None => None
           end.

(** [_buttonStatus[i].field = v], [upd] being the field's setter. *)
Definition status_store (i : nat) (upd : Button -> Button) : M unit :=
  e <- status_at i ;;
  p <- load _buttonStatus ;;
  match assign p i (upd e) with
  | Some p' => store_buttonStatus p'
  | None => undefined
  end.

(** [_buttonPins[i]] as an rvalue. *)
Definition pin_at (i : nat) : M byte :=
  fun w => match deref (_buttonPins (statics w)) i with
           | Some e => Some (e, w)
           | None => None
           end.

(** [_buttonPins[i] = v]. *)
Definition pin_store (i : nat) (v : byte) : M unit :=
  p <- load _buttonPins ;;
  match assign p i v with
  | Some p' => store_buttonPins p'
  | None => undefined
  end.

(** *** The core's functions *)

(** [digitalRead(pin)]: HIGH is [true]. *)
Definition digitalRead (pin : byte) : M bool :=
  fun w => let h := board w in
           Some (pin_level h (hw_tick h) pin, mkWorld (statics w) (tick_board h)).

(** [millis()]: the uptime, truncated to [unsigned long]. *)
Definition millis : M Z :=
  fun w => let h := board w in
           Some (wrap (uptime_ms h (hw_tick h)), mkWorld (statics w) (tick_board h)).

(** [delay(ms)]: time passes. *)
Definition delay (ms : Z) : M unit := modify_board tick_board.

(** [pinMode(pin, INPUT_PULLUP)] *)
Definition pinMode_INPUT_PULLUP (pin : byte) : M unit :=
  modify_board (fun h => set_pullup_pins (pin :: remove Z.eq_dec pin (pullup_pins h)) h).

(** [attachInterrupt(irq, &Buttons::button_ISR, CHANGE)] *)
Definition attachInterrupt (irq : Z) : M unit :=
  modify_board (fun h => set_isr_attached (irq :: remove Z.eq_dec irq (isr_attached h)) h).

(** [detachInterrupt(irq)] *)
Definition detachInterrupt (irq : Z) : M unit :=
  modify_board (fun h => set_isr_attached (remove Z.eq_dec irq (isr_attached h)) h).

(** [new T[n]] without exceptions: the array, each cell built by [init],
    or a null pointer when the heap refuses. *)
Definition new_array {A} (init : A) (n : nat) : M (ptr A) :=
  fun w => let h := board w in
           Some (if heap_grants h (hw_tick h) then live (repeat init n) else nullptr,
                 mkWorld (statics w) (tick_board h)).

(** [delete[] p] of a static member, [store] writing the member back:
    the storage is gone, the member keeps its stale address. *)
Definition delete_array {A} (p : ptr A) (store : ptr A -> M unit) : M unit :=
  match p with
  | nullptr => ret tt
  | live _ => store dangling
  | dangling => undefined
  end.

(** [digitalPinToInterrupt(pin)], a macro of the board's core. *)
Definition pinToInterrupt (pin : byte) : M Z :=
  fun w => Some (digitalPinToInterrupt (board w) pin, w).

(** [buttonPins[i]] for the caller's array handed to [begin]. *)
Definition arg_at {A} (p : ptr A) (i : nat) : M A :=
  fun w => match deref p i with
           | Some v => Some (v, w)
           | None => None
           end.

(** ** buttons.cpp *)

(** [void Buttons::stop()] *)
Definition stop : M unit :=
  begun <- load _begun ;;
  if negb begun then ret tt else
  n <- load _numberOfButtons ;;
  for_upto n (fun i =>
    pin <- pin_at i ;;
    irq <- pinToInterrupt pin ;;
    detachInterrupt irq) ;;
  pins <- load _buttonPins ;;
  delete_array pins store_buttonPins ;;
  status <- load _buttonStatus ;;
  delete_array status store_buttonStatus ;;
  store_begun false.

(** [boolean Buttons::begin(const byte* const buttonPins, size_t numberOfButtons)].
    The cells of [new byte[n]] are indeterminate until the first loop
    writes them; they are shown as 0. *)
Definition begin (buttonPins : ptr byte) (numberOfButtons : nat) : M bool :=
  if is_null buttonPins then ret false else
  begun <- load _begun ;;
  when begun stop ;;
  store_numberOfButtons numberOfButtons ;;
  p <- new_array 0%Z numberOfButtons ;;
  store_buttonPins p ;;
  s <- new_array Button_ctor numberOfButtons ;;
  store_buttonStatus s ;;
  pins <- load _buttonPins ;;
  status <- load _buttonStatus ;;
  if is_null pins || is_null status then ret false else
  for_upto numberOfButtons (fun i =>
    v <- arg_at buttonPins i ;;
    pin_store i v ;;
    v' <- arg_at buttonPins i ;;
    pinMode_INPUT_PULLUP v') ;;
  delay 10 ;;
  for_upto numberOfButtons (fun i =>
    v <- arg_at buttonPins i ;;
    irq <- pinToInterrupt v ;;
    attachInterrupt irq) ;;
  store_begun true ;;
  ret true.

(** The body of the loop of [button_ISR] for index [i]. *)
Definition button_ISR_body (i : nat) : M unit :=
  pin <- pin_at i ;;
  level <- digitalRead pin ;;
  let readState := negb level in
  e <- status_at i ;;
  if negb (Bool.eqb readState (currentState e)) then
    now <- millis ;;
    e' <- status_at i ;;
    when (ulong_add (lastChangeTime e') DEBOUNCE_DELAY <? now)%Z
      (status_store i (set_currentState readState) ;;
       status_store i (set_changeFlag true)) ;;
    now' <- millis ;;
    status_store i (set_lastChangeTime now')
  else ret tt.

(** [void Buttons::button_ISR()] *)
Definition button_ISR : M unit :=
  n <- load _numberOfButtons ;;
  for_upto n button_ISR_body.

(** [boolean Buttons::down(size_t buttonId, boolean clearChangeFlag)] *)
Definition down (buttonId : nat) (clearChangeFlag : bool) : M bool :=
  begun <- load _begun ;;
  if negb begun then ret false else
  when clearChangeFlag (status_store buttonId (set_changeFlag false)) ;;
  e <- status_at buttonId ;;
  ret (currentState e).

(** [boolean Buttons::up(size_t buttonId, boolean clearChangeFlag)] *)
Definition up (buttonId : nat) (clearChangeFlag : bool) : M bool :=
  d <- down buttonId clearChangeFlag ;;
  ret (negb d).

(** [boolean Buttons::changed(size_t buttonId, boolean clearChangeFlag)] *)
Definition changed (buttonId : nat) (clearChangeFlag : bool) : M bool :=
  begun <- load _begun ;;
  if negb begun then ret false else
  e <- status_at buttonId ;;
  let answer := changeFlag e in
  when clearChangeFlag (status_store buttonId (set_changeFlag false)) ;;
  ret answer.

(** [boolean Buttons::clicked(size_t buttonId, boolean clearChangeFlag)]:
    [&&] evaluates its right operand only when the left one is true. *)
Definition clicked (buttonId : nat) (clearChangeFlag : bool) : M bool :=
  c <- changed buttonId clearChangeFlag ;;
  if c then down buttonId false else ret false.

(** Modelled from the spec: [released] is declared in Buttons.h but
    buttons.cpp gives it no body.  The spec describes it as "conceptually
    changed(...) AND up(...), symmetric to clicked": the change flag is
    consulted (and cleared on request) by [changed], and the state by a
    non-clearing [up]. *)
Definition released (buttonId : nat) (clearChangeFlag : bool) : M bool :=
  c <- changed buttonId clearChangeFlag ;;
  if c then up buttonId false else ret false.

(** [void Buttons::clearAllChangeFlags()] *)
Definition clearAllChangeFlags : M unit :=
  begun <- load _begun ;;
  if negb begun then ret tt else
  n <- load _numberOfButtons ;;
  for_upto n (fun i => status_store i (set_changeFlag false)).

(** [size_t Buttons::numberOfButtons()] *)
Definition numberOfButtons : M nat :=
  begun <- load _begun ;;
  if begun then load _numberOfButtons else ret 0.

(** ** Sample boards and runs *)

(** A board whose pins all sit HIGH (idle), with a clock frozen at
    [t] ms, a heap that grants every request and the identity for
    [digitalPinToInterrupt]. *)
Definition idle_board (t : Z) : Hardware :=
  mkHardware 0 (fun _ _ => true) (fun _ => t) (fun _ => true) (fun p => p) [] [].

(** The world with its inputs moved on: from now on the pins of [low]
    are held LOW (pressed), the others sit HIGH, and the clock shows
    [t] ms.  Pin modes and interrupt bindings stay. *)
Definition with_inputs (t : Z) (low : list byte) (w : World) : World :=
  let h := board w in
  mkWorld (statics w)
          (mkHardware (hw_tick h) (fun _ p => negb (existsb (Z.eqb p) low))
                      (fun _ => t) (heap_grants h) (digitalPinToInterrupt h)
                      (pullup_pins h) (isr_attached h)).

(** The program before [begin] was ever called. *)
Definition world_init (h : Hardware) : World := mkWorld statics_init h.

(** The world with another board under the same statics. *)
Definition on_board (h : Hardware) (w : World) : World := mkWorld (statics w) h.

(** The world a computation ends in, and its result. *)
Definition exec {A} (c : M A) (w : World) : option World :=
  option_map snd (c w).
Definition eval {A} (c : M A) (w : World) : option A :=
  option_map fst (c w).

(** ** The accessors with their stores on record

    Passing the world along cannot tell one store from the same store
    made twice.  The accessors [clicked] is made of are therefore
    embedded once more, over the same world and the same primitives,
    with every assignment to a field of an entry appended to a log. *)

(** [_buttonStatus[i].changeFlag = v] *)
Inductive store_event : Type :=
| StoreChangeFlag (i : nat) (v : bool).

(** A world and the stores made to its entries so far. *)
Record Audit : Type := mkAudit {
  world : World;
  stores : list store_event
}.

Declare Scope logged_scope.
Delimit Scope logged_scope with logged.

Module Logged.

Definition L (A : Type) : Type := Audit -> option (A * Audit).

Definition ret {A} (a : A) : L A := fun s => Some (a, s).
Definition bind {A B} (c : L A) (k : A -> L B) : L B :=
  fun s => match c s with
           | Some (a, s') => k a s'
           | None => None
           end.

Notation "x <- c ;; k" := (bind c (fun x => k))
  (at level 61, c at next level, right associativity) : logged_scope.
Notation "c ;; k" := (bind c (fun _ => k))
  (at level 61, right associativity) : logged_scope.
Local Open Scope logged_scope.

(** A computation of the plain model, which logs nothing. *)
Definition lift {A} (c : M A) : L A :=
  fun s => match c (world s) with
           | Some (a, w') => Some (a, mkAudit w' (stores s))
           | None => None
           end.

(** One more store on the log. *)
Definition log_store (ev : store_event) : L unit :=
  fun s => Some (tt, mkAudit (world s) (stores s ++ [ev])).

(** [if (c) stmt;] *)
Definition when (c : bool) (stmt : L unit) : L unit :=
  if c then stmt else ret tt.

(** [_buttonStatus[i].changeFlag = v], logged. *)
Definition store_changeFlag (i : nat) (v : bool) : L unit :=
  lift (status_store i (set_changeFlag v)) ;;
  log_store (StoreChangeFlag i v).

(** [boolean Buttons::down(size_t buttonId, boolean clearChangeFlag)] *)
Definition down (buttonId : nat) (clearChangeFlag : bool) : L bool :=
  begun <- lift (load _begun) ;;
  if negb begun then ret false else
  when clearChangeFlag (store_changeFlag buttonId false) ;;
  e <- lift (status_at buttonId) ;;
  ret (currentState e).

(** [boolean Buttons::changed(size_t buttonId, boolean clearChangeFlag)] *)
Definition changed (buttonId : nat) (clearChangeFlag : bool) : L bool :=
  begun <- lift (load _begun) ;;
  if negb begun then ret false else
  e <- lift (status_at buttonId) ;;
  let answer := changeFlag e in
  when clearChangeFlag (store_changeFlag buttonId false) ;;
  ret answer.

(** [boolean Buttons::clicked(size_t buttonId, boolean clearChangeFlag)] *)
Definition clicked (buttonId : nat) (clearChangeFlag : bool) : L bool :=
  c <- changed buttonId clearChangeFlag ;;
  if c then down buttonId false else ret false.

End Logged.

(** The stores a clearing accessor adds to the log for entry [id]. *)
Definition clearing_stores (clear : bool) (id : nat) : list store_event :=
  if clear then [StoreChangeFlag id false] else [].

(** Forgetting the log of an outcome. *)
Definition forget_log {A} (r : option (A * Audit)) : option (A * World) :=
  match r with
  | Some (a, s) => Some (a, world s)
  | None => None
  end.

(** * Vocabulary of the proofs *)

(** ** Arrays and worlds *)

(** [list_upd i f l] applies [f] to cell [i] of [l], if there is one. *)
Fixpoint list_upd {A} (i : nat) (f : A -> A) (l : list A) : list A :=
  match l, i with
  | [], _ => []
  | h :: t, O => f h :: t
  | h :: t, S i' => h :: list_upd i' f t
  end.

(** The world with the cells of [_buttonStatus] replaced. *)
Definition with_cells (cells : list Button) (w : World) : World :=
  mkWorld (mkStatics (_numberOfButtons (statics w)) (_buttonPins (statics w))
                     (live cells) (_begun (statics w)))
          (board w).

(** The world with the board replaced by [h] and the cells by [cells]. *)
Definition with_cells_on (cells : list Button) (h : Hardware) (w : World) : World :=
  with_cells cells (on_board h w).

(** A registry after a successful [begin]: both arrays are live and
    hold [_numberOfButtons] cells. *)
Record started (w : World) (pins : list byte) (cells : list Button) : Prop := {
  started_begun : _begun (statics w) = true;
  started_pins : _buttonPins (statics w) = live pins;
  started_status : _buttonStatus (statics w) = live cells;
  started_npins : length pins = _numberOfButtons (statics w);
  started_ncells : length cells = _numberOfButtons (statics w)
}.

(** The world after [_buttonStatus[i].changeFlag = false]. *)
Definition clear_changeFlag (i : nat) (w : World) : World :=
  match _buttonStatus (statics w) with
  | live cells => with_cells (list_upd i (set_changeFlag false) cells) w
  | _ => w
  end.

(** The same, done only when [c] holds. *)
Definition clear_if (c : bool) (i : nat) (w : World) : World :=
  if c then clear_changeFlag i w else w.

(** What an accessor that answers [field] of the entry does, in one
    equation: the not-begun default, undefined behaviour on a bad index
    or pointer, the answer and the optional clearing otherwise. *)
Definition accessor_outcome (field : Button -> bool) (id : nat) (clear : bool)
    (w : World) : option (bool * World) :=
  if negb (_begun (statics w)) then Some (false, w)
  else match deref (_buttonStatus (statics w)) id with
       | Some e => Some (field e, clear_if clear id w)
       | None => None
       end.

(** ** What the main-line accessors may touch *)

(** Two entries that differ at most by a change flag that went false. *)
Definition same_but_flag (e e' : Button) : Prop :=
  currentState e' = currentState e /\
  lastChangeTime e' = lastChangeTime e /\
  (changeFlag e' = changeFlag e \/ changeFlag e' = false).

(** Two worlds that differ at most by change flags that went false. *)
Definition flags_only (w w' : World) : Prop :=
  board w' = board w /\
  _numberOfButtons (statics w') = _numberOfButtons (statics w) /\
  _buttonPins (statics w') = _buttonPins (statics w) /\
  _begun (statics w') = _begun (statics w) /\
  match _buttonStatus (statics w), _buttonStatus (statics w') with
  | live cells, live cells' => Forall2 same_but_flag cells cells'
  | nullptr, nullptr => True
  | dangling, dangling => True
  | _, _ => False
  end.

(** ** The debounce engine in closed form *)

(** The board once [k] observations have been made. *)
Definition board_at (k : nat) (h : Hardware) : Hardware :=
  mkHardware k (pin_level h) (uptime_ms h) (heap_grants h)
             (digitalPinToInterrupt h) (pullup_pins h) (isr_attached h).

(** The raw state the engine computes from the read at observation [k]. *)
Definition raw_state (h : Hardware) (k : nat) (pin : byte) : bool :=
  negb (pin_level h k pin).

(** The quiet-window test of line 111, on [unsigned long]. *)
Definition quiet_window_passed (last now : Z) : bool :=
  (ulong_add last DEBOUNCE_DELAY <? now)%Z.

(** One entry through one pass of the loop body that starts at
    observation [k]: the pin is read at [k], and on a divergence the
    clock is read at [k+1] (for the test) and [k+2] (for the store). *)
Definition isr_entry (h : Hardware) (k : nat) (pin : byte) (e : Button) : Button :=
  let raw := raw_state h k pin in
  if Bool.eqb raw (currentState e) then e
  else
    let now := wrap (uptime_ms h (S k)) in
    let now' := wrap (uptime_ms h (S (S k))) in
    if quiet_window_passed (lastChangeTime e) now
    then mkButton raw true now'
    else mkButton (currentState e) (changeFlag e) now'.

(** The observations that pass makes. *)
Definition isr_cost (h : Hardware) (k : nat) (pin : byte) (e : Button) : nat :=
  if Bool.eqb (raw_state h k pin) (currentState e) then 1 else 3.

(** The whole loop over the registry, starting at observation [k]:
    the entries it leaves and the observation count it ends at. *)
Fixpoint isr_scan (h : Hardware) (k : nat) (pins : list byte) (cells : list Button)
  : list Button * nat :=
  match pins, cells with
  | pin :: pins', e :: cells' =>
      let (rest, k') := isr_scan h (k + isr_cost h k pin e) pins' cells' in
      (isr_entry h k pin e :: rest, k')
  | _, _ => ([], k)
  end.

(** The observation count at which the loop reaches index [i]. *)
Definition isr_tick (h : Hardware) (k : nat) (pins : list byte) (cells : list Button)
    (i : nat) : nat :=
  snd (isr_scan h k (firstn i pins) (firstn i cells)).

(** ** [begin] and [stop] in pieces *)

(** [begin] after its null check and its optional [stop]. *)
Definition begin_tail (buttonPins : ptr byte) (numberOfButtons : nat) : M bool :=
  store_numberOfButtons numberOfButtons ;;
  p <- new_array 0%Z numberOfButtons ;;
  store_buttonPins p ;;
  s <- new_array Button_ctor numberOfButtons ;;
  store_buttonStatus s ;;
  pins <- load _buttonPins ;;
  status <- load _buttonStatus ;;
  if is_null pins || is_null status then ret false else
  for_upto numberOfButtons (fun i =>
    v <- arg_at buttonPins i ;;
    pin_store i v ;;
    v' <- arg_at buttonPins i ;;
    pinMode_INPUT_PULLUP v') ;;
  delay 10 ;;
  for_upto numberOfButtons (fun i =>
    v <- arg_at buttonPins i ;;
    irq <- pinToInterrupt v ;;
    attachInterrupt irq) ;;
  store_begun true ;;
  ret true.

(** [begin] past the allocation check: the two loops and the flag. *)
Definition begin_setup (buttonPins : ptr byte) (numberOfButtons : nat) : M bool :=
  for_upto numberOfButtons (fun i =>
    v <- arg_at buttonPins i ;;
    pin_store i v ;;
    v' <- arg_at buttonPins i ;;
    pinMode_INPUT_PULLUP v') ;;
  delay 10 ;;
  for_upto numberOfButtons (fun i =>
    v <- arg_at buttonPins i ;;
    irq <- pinToInterrupt v ;;
    attachInterrupt irq) ;;
  store_begun true ;;
  ret true.

(** What the [k]-th observation of the heap hands to [new T[n]]. *)
Definition allocated {A} (h : Hardware) (k : nat) (init : A) (n : nat) : ptr A :=
  if heap_grants h k then live (repeat init n) else nullptr.

(** The world once [begin] has stored the count and both pointers. *)
Definition after_alloc (n : nat) (w : World) : World :=
  let h := board w in
  let k := hw_tick h in
  mkWorld (mkStatics n (allocated h k 0%Z n) (allocated h (S k) Button_ctor n)
                     (_begun (statics w)))
          (board_at (S (S k)) h).

(** What the two loops of [begin] leave alone. *)
Definition setup_keeps (w w' : World) : Prop :=
  _numberOfButtons (statics w') = _numberOfButtons (statics w) /\
  _buttonStatus (statics w') = _buttonStatus (statics w) /\
  _begun (statics w') = _begun (statics w).

(** The interrupts still bound to the handler once those of [pins]
    have been detached. *)
Definition detach_all (h : Hardware) (pins : list byte) (bound : list Z) : list Z :=
  fold_left (fun l pin => remove Z.eq_dec (digitalPinToInterrupt h pin) l) pins bound.

(** The world [stop] leaves when it has something to stop. *)
Definition stopped (w : World) (pins : list byte) : World :=
  mkWorld (mkStatics (_numberOfButtons (statics w)) dangling dangling false)
          (set_isr_attached (detach_all (board w) pins (isr_attached (board w)))
                            (board w)).

(** Entering the items of [l] one by one into a list that keeps one
    copy of each, as [pinMode] and [attachInterrupt] do. *)
Definition enter_all (l : list Z) (seen : list Z) : list Z :=
  fold_left (fun acc x => x :: remove Z.eq_dec x acc) l seen.

(** The world with the cells of [_buttonPins] replaced. *)
Definition with_pins (pins : list byte) (w : World) : World :=
  mkWorld (mkStatics (_numberOfButtons (statics w)) (live pins)
                     (_buttonStatus (statics w)) (_begun (statics w)))
          (board w).

(** The world a successful [begin] builds over a not-begun world [w]
    from the first [n] cells of the caller's array [src]. *)
Definition begun_world (src : list byte) (n : nat) (w : World) : World :=
  let h := board w in
  let pins := firstn n src in
  mkWorld (mkStatics n (live pins) (live (repeat Button_ctor n)) true)
          (mkHardware (hw_tick h + 3) (pin_level h) (uptime_ms h) (heap_grants h)
             (digitalPinToInterrupt h)
             (enter_all pins (pullup_pins h))
             (enter_all (map (digitalPinToInterrupt h) pins) (isr_attached h))).

(** ** Sample registries *)

(** Two buttons on pins 2 and 3, just begun on an idle board. *)
Definition sample_started : World :=
  begun_world [2; 3]%Z 2 (world_init (idle_board 0)).

(** The sample registry after one pass of the engine at uptime 100 ms
    with the button on pin 2 held down: the press is accepted. *)
Definition sample_pressed : World :=
  with_cells_on [mkButton true true 100; Button_ctor]
                (board_at 7 (board (with_inputs 100 [2%Z] sample_started)))
                (with_inputs 100 [2%Z] sample_started).

(** The same once the main line has acknowledged the press. *)
Definition sample_acknowledged : World :=
  with_cells [mkButton true false 100; Button_ctor] sample_pressed.

(** Polling an accessor [n] times in a row. *)
Fixpoint poll {A} (c : M A) (n : nat) : M (list A) :=
  match n with
  | O => ret []
  | S n' => r <- c ;; rs <- poll c n' ;; ret (r :: rs)
  end.

(** The test the spec asks for, in its words: the elapsed time, taken
    modulo the clock's width, against the delay (with the strict
    comparison of the code). *)
Definition elapsed_quiet_window (last now : Z) : bool :=
  (DEBOUNCE_DELAY <? wrap (now - last))%Z.

(** One pass of the engine at uptime [t] with the pins of [low] pressed. *)
Definition isr_at (t : Z) (low : list byte) (w : World) : option World :=
  exec button_ISR (with_inputs t low w).

(** ** Runs of the engine on given inputs *)

(** The entry the loop body leaves when the line reads [raw] and both
    calls of [millis()] return [now]. *)
Definition debounce (raw : bool) (now : Z) (e : Button) : Button :=
  if Bool.eqb raw (currentState e) then e
  else if quiet_window_passed (lastChangeTime e) now
       then mkButton raw true now
       else mkButton (currentState e) (changeFlag e) now.

(** Whether the button on [pin] is held down when the pins of [low]
    are. *)
Definition pressed (low : list byte) (pin : byte) : bool :=
  existsb (Z.eqb pin) low.

(** A series of interrupts, each one a pass of the engine at an uptime
    and with a set of pins held down. *)
Fixpoint isr_events (evs : list (Z * list byte)) (w : World) : option World :=
  match evs with
  | [] => Some w
  | (t, low) :: evs' =>
      match isr_at t low w with
      | Some w' => isr_events evs' w'
      | None => None
      end
  end.

(** An idle board whose heap refuses every request. *)
Definition exhausted_board : Hardware :=
  mkHardware 0 (fun _ _ => true) (fun _ => 0%Z) (fun _ => false) (fun p => p) [] [].

(** * Properties *)

(** ** Arrays *)

Lemma list_store_upd {A} (f : A -> A) : forall l i e,
  nth_error l i = Some e -> list_store i (f e) l = Some (list_upd i f l).
Proof.
  induction l as [|h t IH]; intros [|i] e H; simpl in *; try discriminate.
  - now inversion H.
  - now rewrite (IH _ _ H).
Qed.

Lemma list_upd_length {A} (f : A -> A) : forall l i,
  length (list_upd i f l) = length l.
Proof. induction l; intros [|i]; simpl; auto. Qed.

Lemma nth_error_list_upd_same {A} (f : A -> A) : forall l i,
  nth_error (list_upd i f l) i = option_map f (nth_error l i).
Proof. induction l; intros [|i]; simpl; auto. Qed.

Lemma nth_error_list_upd_other {A} (f : A -> A) : forall l i j,
  i <> j -> nth_error (list_upd i f l) j = nth_error l j.
Proof.
  induction l; intros [|i] [|j] H; simpl; auto; try congruence.
Qed.

Lemma list_upd_id {A} (f : A -> A) : forall l i,
  (forall e, nth_error l i = Some e -> f e = e) -> list_upd i f l = l.
Proof.
  induction l as [|h t IH]; intros [|i] H; simpl; auto.
  - now rewrite (H h eq_refl).
  - now rewrite IH.
Qed.

Lemma list_upd_const {A} (f : A -> A) : forall l i e,
  nth_error l i = Some e -> list_upd i f l = list_upd i (fun _ => f e) l.
Proof.
  induction l as [|h t IH]; intros [|i] e H; simpl in *; auto.
  - now inversion H.
  - now rewrite (IH _ _ H).
Qed.

Lemma list_upd_compose {A} (f g : A -> A) : forall l i,
  list_upd i g (list_upd i f l) = list_upd i (fun e => g (f e)) l.
Proof. induction l; intros [|i]; simpl; auto. now rewrite IHl. Qed.

(** ** Worlds *)

Lemma with_cells_same w cells :
  _buttonStatus (statics w) = live cells -> with_cells cells w = w.
Proof.
  destruct w as [[n p s b] h]; unfold with_cells; simpl; intros ->; reflexivity.
Qed.

Lemma status_at_run w cells i e :
  _buttonStatus (statics w) = live cells -> nth_error cells i = Some e ->
  status_at i w = Some (e, w).
Proof. unfold status_at, deref. now intros -> ->. Qed.

Lemma status_at_inv w i e w' :
  status_at i w = Some (e, w') ->
  w' = w /\ exists cells, _buttonStatus (statics w) = live cells /\ nth_error cells i = Some e.
Proof.
  unfold status_at, deref.
  destruct (_buttonStatus (statics w)) as [|cells|]; try discriminate.
  destruct (nth_error cells i) eqn:E; try discriminate.
  intros H; inversion H; subst. eauto.
Qed.

Lemma status_store_run w cells i e upd :
  _buttonStatus (statics w) = live cells -> nth_error cells i = Some e ->
  status_store i upd w = Some (tt, with_cells (list_upd i upd cells) w).
Proof.
  intros Hs He. unfold status_store, bind.
  rewrite (status_at_run _ _ _ _ Hs He). unfold load. rewrite Hs. simpl.
  now rewrite (list_store_upd upd _ _ _ He).
Qed.

Lemma status_store_inv w i upd w' :
  status_store i upd w = Some (tt, w') ->
  exists cells e, _buttonStatus (statics w) = live cells /\ nth_error cells i = Some e /\
                  w' = with_cells (list_upd i upd cells) w.
Proof.
  intros H. pose proof H as H0. unfold status_store, bind in H0.
  destruct (status_at i w) as [[e w1]|] eqn:E; try discriminate.
  apply status_at_inv in E. destruct E as [-> (cells & Hs & He)].
  exists cells, e. repeat split; auto.
  rewrite (status_store_run _ _ _ _ upd Hs He) in H. congruence.
Qed.

(** ** The accessors in closed form *)

Lemma deref_status_cases w id :
  (exists cells e, _buttonStatus (statics w) = live cells /\ nth_error cells id = Some e /\
                   deref (_buttonStatus (statics w)) id = Some e)
  \/ (deref (_buttonStatus (statics w)) id = None /\ status_at id w = None).
Proof.
  unfold status_at.
  destruct (deref (_buttonStatus (statics w)) id) as [e|] eqn:E; [left|right; auto].
  unfold deref in E. destruct (_buttonStatus (statics w)) as [|cells|]; try discriminate.
  eauto.
Qed.

Lemma status_store_undefined w id upd :
  status_at id w = None -> status_store id upd w = None.
Proof. intros H. unfold status_store, bind. now rewrite H. Qed.

Lemma down_eq id clear w :
  down id clear w = accessor_outcome currentState id clear w.
Proof.
  unfold down, accessor_outcome, bind, load, when, ret.
  destruct (_begun (statics w)); simpl; auto.
  destruct (deref_status_cases w id) as [(cells & e & Hs & He & ->)|[-> Hu]].
  - destruct clear; simpl.
    + rewrite (status_store_run _ _ _ _ (set_changeFlag false) Hs He).
      rewrite (status_at_run _ (list_upd id (set_changeFlag false) cells) id
                 (set_changeFlag false e)).
      * unfold clear_changeFlag; rewrite Hs; reflexivity.
      * reflexivity.
      * rewrite nth_error_list_upd_same, He. reflexivity.
    + now rewrite (status_at_run _ _ _ _ Hs He).
  - destruct clear; simpl.
    + now rewrite (status_store_undefined _ _ _ Hu).
    + now rewrite Hu.
Qed.

Lemma changed_eq id clear w :
  changed id clear w = accessor_outcome changeFlag id clear w.
Proof.
  unfold changed, accessor_outcome, bind, load, when, ret.
  destruct (_begun (statics w)); simpl; auto.
  destruct (deref_status_cases w id) as [(cells & e & Hs & He & ->)|[-> Hu]].
  - rewrite (status_at_run _ _ _ _ Hs He).
    destruct clear; simpl; auto.
    rewrite (status_store_run _ _ _ _ (set_changeFlag false) Hs He).
    unfold clear_changeFlag; rewrite Hs; reflexivity.
  - now rewrite Hu.
Qed.

Lemma up_eq id clear w :
  up id clear w = match down id clear w with
                  | Some (d, w') => Some (negb d, w')
                  | None => None
                  end.
Proof. reflexivity. Qed.

Lemma numberOfButtons_eq w :
  numberOfButtons w
  = Some (if _begun (statics w) then _numberOfButtons (statics w) else 0, w).
Proof.
  unfold numberOfButtons, bind, load, ret. now destruct (_begun (statics w)).
Qed.

Lemma clicked_eq id clear w :
  clicked id clear w = match changed id clear w with
                       | Some (true, w1) => down id false w1
                       | Some (false, w1) => Some (false, w1)
                       | None => None
                       end.
Proof.
  unfold clicked, bind, ret.
  destruct (changed id clear w) as [[[|] w1]|]; reflexivity.
Qed.

Lemma released_eq id clear w :
  released id clear w = match changed id clear w with
                        | Some (true, w1) => up id false w1
                        | Some (false, w1) => Some (false, w1)
                        | None => None
                        end.
Proof.
  unfold released, bind, ret.
  destruct (changed id clear w) as [[[|] w1]|]; reflexivity.
Qed.

Lemma started_clear_changeFlag w pins cells id :
  started w pins cells ->
  started (clear_changeFlag id w) pins (list_upd id (set_changeFlag false) cells).
Proof.
  intros [Hb Hp Hs Hn Hc]. unfold clear_changeFlag. rewrite Hs.
  split; simpl; auto. now rewrite list_upd_length.
Qed.

(** On a started registry an accessor with a valid id answers from the
    entry and clears on request. *)
Lemma accessor_outcome_started field w pins cells id e clear :
  started w pins cells -> nth_error cells id = Some e ->
  accessor_outcome field id clear w = Some (field e, clear_if clear id w).
Proof.
  intros [Hb Hp Hs Hn Hc] He. unfold accessor_outcome.
  rewrite Hb, Hs. simpl. now rewrite He.
Qed.

Lemma accessor_outcome_not_begun field w id clear :
  _begun (statics w) = false ->
  accessor_outcome field id clear w = Some (false, w).
Proof. intros H. unfold accessor_outcome. now rewrite H. Qed.

(** [stop] always leaves the registry not begun. *)
Lemma stop_not_begun w w' :
  stop w = Some (tt, w') -> _begun (statics w') = false.
Proof.
  unfold stop, bind, load.
  destruct (_begun (statics w)) eqn:Hb; simpl.
  - destruct (for_upto _ _ w) as [[[] w1]|]; try discriminate.
    destruct (delete_array _ _ w1) as [[[] w2]|]; try discriminate.
    destruct (delete_array _ _ w2) as [[[] w3]|]; try discriminate.
    unfold store_begun, modify_statics. intros H; inversion H; reflexivity.
  - unfold ret. intros H; inversion H; subst; assumption.
Qed.

(** ** The frame relation *)

Lemma same_but_flag_refl e : same_but_flag e e.
Proof. unfold same_but_flag; auto. Qed.

Lemma same_but_flag_trans e1 e2 e3 :
  same_but_flag e1 e2 -> same_but_flag e2 e3 -> same_but_flag e1 e3.
Proof.
  unfold same_but_flag. intros (A1 & B1 & C1) (A2 & B2 & C2).
  repeat split; try congruence.
  destruct C2 as [C2|C2]; [destruct C1 as [C1|C1]|]; [left|right|right]; congruence.
Qed.

Lemma same_but_flag_clear e : same_but_flag e (set_changeFlag false e).
Proof. unfold same_but_flag; simpl; auto. Qed.

Lemma Forall2_same_but_flag_refl cells : Forall2 same_but_flag cells cells.
Proof. induction cells; constructor; auto using same_but_flag_refl. Qed.

Lemma Forall2_same_but_flag_trans : forall l1 l2 l3,
  Forall2 same_but_flag l1 l2 -> Forall2 same_but_flag l2 l3 ->
  Forall2 same_but_flag l1 l3.
Proof.
  intros l1 l2 l3 H. revert l3.
  induction H; intros l3 H3; inversion H3; subst; constructor;
    eauto using same_but_flag_trans.
Qed.

Lemma Forall2_same_but_flag_upd : forall cells i,
  Forall2 same_but_flag cells (list_upd i (set_changeFlag false) cells).
Proof.
  induction cells; intros [|i]; simpl; constructor;
    auto using same_but_flag_clear, same_but_flag_refl, Forall2_same_but_flag_refl.
Qed.

Lemma flags_only_refl w : flags_only w w.
Proof.
  unfold flags_only. repeat split; auto.
  destruct (_buttonStatus (statics w)); auto using Forall2_same_but_flag_refl.
Qed.

Lemma flags_only_trans w1 w2 w3 :
  flags_only w1 w2 -> flags_only w2 w3 -> flags_only w1 w3.
Proof.
  unfold flags_only. intros (A1 & B1 & C1 & D1 & E1) (A2 & B2 & C2 & D2 & E2).
  repeat split; try congruence.
  destruct (_buttonStatus (statics w1)), (_buttonStatus (statics w2)),
           (_buttonStatus (statics w3)); try tauto.
  eauto using Forall2_same_but_flag_trans.
Qed.

Lemma flags_only_clear w i : flags_only w (clear_changeFlag i w).
Proof.
  unfold clear_changeFlag.
  destruct (_buttonStatus (statics w)) as [|cells|] eqn:E;
    try apply flags_only_refl.
  unfold flags_only; simpl. rewrite E. repeat split; auto.
  apply Forall2_same_but_flag_upd.
Qed.

Lemma flags_only_clear_if w c i : flags_only w (clear_if c i w).
Proof. destruct c; simpl; auto using flags_only_clear, flags_only_refl. Qed.

(** A loop whose every iteration respects a preorder respects it. *)
Lemma for_from_preserves (R : World -> World -> Prop) (body : nat -> M unit) :
  (forall w, R w w) ->
  (forall w1 w2 w3, R w1 w2 -> R w2 w3 -> R w1 w3) ->
  (forall i w w', body i w = Some (tt, w') -> R w w') ->
  forall count i w w', for_from i count body w = Some (tt, w') -> R w w'.
Proof.
  intros Hrefl Htrans Hbody. induction count as [|c IH]; intros i w w' H; simpl in H.
  - inversion H; subst; auto.
  - unfold bind in H. destruct (body i w) as [[[] w1]|] eqn:E; try discriminate.
    eauto.
Qed.

Lemma accessor_outcome_frame field id clear w r w' :
  accessor_outcome field id clear w = Some (r, w') ->
  (clear = false -> w' = w) /\ flags_only w w'.
Proof.
  unfold accessor_outcome.
  destruct (negb (_begun (statics w))).
  - intros H; inversion H; subst. auto using flags_only_refl.
  - destruct (deref (_buttonStatus (statics w)) id); try discriminate.
    intros H; inversion H; subst. split.
    + now intros ->.
    + apply flags_only_clear_if.
Qed.

(** ** The loop of the engine *)

Lemma list_upd_app {A} (f : A -> A) : forall (l1 l2 : list A) (e : A),
  list_upd (length l1) f (l1 ++ e :: l2) = l1 ++ f e :: l2.
Proof. induction l1; intros; simpl; auto. now rewrite IHl1. Qed.

Lemma nth_error_app_here {A} : forall (l1 l2 : list A) (e : A),
  nth_error (l1 ++ e :: l2) (length l1) = Some e.
Proof. induction l1; intros; simpl; auto. Qed.

Lemma bind_run {A B} (c : M A) (k : A -> M B) w a w' :
  c w = Some (a, w') -> bind c k w = k a w'.
Proof. unfold bind. now intros ->. Qed.

Lemma pin_at_run w pins i pin :
  _buttonPins (statics w) = live pins -> nth_error pins i = Some pin ->
  pin_at i w = Some (pin, w).
Proof. unfold pin_at, deref. now intros -> ->. Qed.

Lemma digitalRead_run pin w :
  digitalRead pin w
  = Some (pin_level (board w) (hw_tick (board w)) pin,
          on_board (tick_board (board w)) w).
Proof. reflexivity. Qed.

Lemma millis_run w :
  millis w = Some (wrap (uptime_ms (board w) (hw_tick (board w))),
                   on_board (tick_board (board w)) w).
Proof. reflexivity. Qed.

(** Running the next statement of a sequence, given its outcome. *)
Ltac run_with lem := erewrite bind_run; [| solve [ eapply lem; simpl; eauto ] ].

(** One pass of the loop body of [button_ISR]. *)
Lemma button_ISR_body_run w pins cells i pin e :
  _buttonPins (statics w) = live pins ->
  _buttonStatus (statics w) = live cells ->
  nth_error pins i = Some pin ->
  nth_error cells i = Some e ->
  let h := board w in
  let k := hw_tick h in
  button_ISR_body i w
  = Some (tt, with_cells_on (list_upd i (fun _ => isr_entry h k pin e) cells)
                            (board_at (k + isr_cost h k pin e) h) w).
Proof.
  intros Hp Hs Hnp He h k. unfold button_ISR_body.
  run_with pin_at_run. run_with digitalRead_run. run_with status_at_run.
  unfold isr_entry, isr_cost, raw_state. fold h k.
  destruct (Bool.eqb (negb (pin_level h k pin)) (currentState e)) eqn:Hd; simpl.
  - unfold ret. rewrite list_upd_id by (intros; congruence).
    subst h k. destruct w as [[n p s b] hw]; simpl in *; subst.
    unfold with_cells_on, with_cells, on_board, board_at, tick_board; simpl.
    now rewrite Nat.add_1_r.
  - run_with millis_run. run_with status_at_run.
    assert (Hk3 : k + 3 = S (S (S k))) by lia.
    unfold quiet_window_passed. cbn [on_board board tick_board hw_tick uptime_ms]. fold h k.
    destruct (ulong_add (lastChangeTime e) DEBOUNCE_DELAY <? wrap (uptime_ms h (S k)))%Z;
      unfold when.
    + erewrite bind_run.
      2:{ erewrite bind_run; [| solve [ eapply status_store_run; simpl; eauto ] ].
          eapply status_store_run; simpl; eauto.
          rewrite nth_error_list_upd_same, He; reflexivity. }
      run_with millis_run.
      erewrite status_store_run; simpl; eauto.
      2:{ rewrite !nth_error_list_upd_same, He; reflexivity. }
      rewrite !list_upd_compose, (list_upd_const _ _ _ _ He).
      subst h k. destruct w as [[n p s b] hw]; simpl in *; subst.
      unfold with_cells_on, with_cells, on_board, board_at, tick_board; simpl.
      rewrite Hk3. reflexivity.
    + erewrite bind_run; [| reflexivity ].
      run_with millis_run.
      erewrite status_store_run; simpl; eauto.
      rewrite (list_upd_const _ _ _ _ He).
      subst h k. destruct w as [[n p s b] hw]; simpl in *; subst.
      unfold with_cells_on, with_cells, on_board, board_at, tick_board; simpl.
      rewrite Hk3. reflexivity.
Qed.

Lemma isr_scan_board_at h j : forall pins cells k,
  isr_scan (board_at j h) k pins cells = isr_scan h k pins cells.
Proof.
  induction pins as [|pin pins IH]; intros [|e cells] k; simpl; auto.
  change (isr_cost (board_at j h) k pin e) with (isr_cost h k pin e).
  change (isr_entry (board_at j h) k pin e) with (isr_entry h k pin e).
  now rewrite IH.
Qed.

Lemma isr_scan_length h : forall pins cells k,
  length pins = length cells ->
  length (fst (isr_scan h k pins cells)) = length cells.
Proof.
  induction pins as [|pin pins IH]; intros [|e cells] k H; simpl in *; try discriminate; auto.
  specialize (IH cells (k + isr_cost h k pin e)).
  destruct (isr_scan h (k + isr_cost h k pin e) pins cells); simpl in *.
  f_equal. apply IH. lia.
Qed.

Lemma isr_scan_nth h : forall pins cells k i pin e,
  nth_error pins i = Some pin -> nth_error cells i = Some e ->
  nth_error (fst (isr_scan h k pins cells)) i
  = Some (isr_entry h (isr_tick h k pins cells i) pin e).
Proof.
  unfold isr_tick.
  induction pins as [|p pins IH]; intros [|c cells] k [|i] pin e Hp He;
    simpl in *; try discriminate.
  - destruct (isr_scan h (k + isr_cost h k p c) pins cells); simpl. congruence.
  - specialize (IH cells (k + isr_cost h k p c) i pin e Hp He).
    destruct (isr_scan h (k + isr_cost h k p c) pins cells); simpl in *.
    destruct (isr_scan h (k + isr_cost h k p c) (firstn i pins) (firstn i cells));
      simpl in *.
    exact IH.
Qed.

Lemma board_at_tick h : board_at (hw_tick h) h = h.
Proof. now destruct h. Qed.

Lemma with_cells_on_same w cells :
  _buttonStatus (statics w) = live cells ->
  with_cells_on cells (board_at (hw_tick (board w)) (board w)) w = w.
Proof.
  intros H. unfold with_cells_on. rewrite board_at_tick.
  destruct w as [[n p s b] h]. simpl in H. subst s. reflexivity.
Qed.

(** The loop of [button_ISR], resumed at index [length done]. *)
Lemma isr_loop_run : forall ptodo todo pdone done w,
  length pdone = length done ->
  length ptodo = length todo ->
  _buttonPins (statics w) = live (pdone ++ ptodo) ->
  _buttonStatus (statics w) = live (done ++ todo) ->
  let h := board w in
  for_from (length done) (length todo) button_ISR_body w
  = Some (tt, with_cells_on (done ++ fst (isr_scan h (hw_tick h) ptodo todo))
                            (board_at (snd (isr_scan h (hw_tick h) ptodo todo)) h) w).
Proof.
  induction ptodo as [|pin ptodo IH]; intros [|e todo] pdone done w Hd Ht Hp Hs h;
    simpl in Ht; try discriminate.
  - cbn [for_from isr_scan fst snd length]. unfold ret. subst h.
    rewrite app_nil_r in *. now rewrite (with_cells_on_same w done Hs).
  - cbn [length for_from].
    erewrite bind_run.
    2:{ eapply button_ISR_body_run; eauto.
        - rewrite <- Hd. apply nth_error_app_here.
        - apply nth_error_app_here. }
    rewrite list_upd_app. fold h.
    set (k := hw_tick h). set (e1 := isr_entry h k pin e).
    set (k1 := k + isr_cost h k pin e).
    set (w1 := with_cells_on (done ++ e1 :: todo) (board_at k1 h) w).
    assert (Hlen : S (length done) = length (done ++ [e1]))
      by (rewrite length_app; simpl; lia).
    rewrite Hlen.
    rewrite (IH todo (pdone ++ [pin]) (done ++ [e1]) w1).
    + cbn [isr_scan]. fold k e1 k1.
      change (board w1) with (board_at k1 h).
      change (hw_tick (board_at k1 h)) with k1.
      rewrite isr_scan_board_at.
      destruct (isr_scan h k1 ptodo todo) as [rest k2]. simpl.
      rewrite <- app_assoc. reflexivity.
    + rewrite !length_app; simpl; lia.
    + lia.
    + subst w1; simpl. rewrite Hp, <- app_assoc. reflexivity.
    + subst w1; simpl. rewrite <- app_assoc. reflexivity.
Qed.

(** [button_ISR] on a registry whose arrays are in place. *)
Lemma button_ISR_run w pins cells :
  started w pins cells ->
  let h := board w in
  button_ISR w
  = Some (tt, with_cells_on (fst (isr_scan h (hw_tick h) pins cells))
                            (board_at (snd (isr_scan h (hw_tick h) pins cells)) h) w).
Proof.
  intros [Hb Hp Hs Hn Hc] h. unfold button_ISR, for_upto.
  erewrite bind_run by reflexivity.
  rewrite <- Hc.
  apply (isr_loop_run pins cells [] [] w); auto. lia.
Qed.

(** ** Running [begin] and [stop] *)

Lemma begin_eq buttonPins n w :
  begin buttonPins n w
  = if is_null buttonPins then Some (false, w)
    else if _begun (statics w)
         then match stop w with
              | Some (_, w1) => begin_tail buttonPins n w1
              | None => None
              end
         else begin_tail buttonPins n w.
Proof.
  unfold begin. destruct (is_null buttonPins); auto.
  fold (begin_tail buttonPins n). unfold bind, load, when.
  destruct (_begun (statics w)); auto.
Qed.

Lemma begin_tail_eq buttonPins n w :
  begin_tail buttonPins n w
  = let w2 := after_alloc n w in
    if is_null (_buttonPins (statics w2)) || is_null (_buttonStatus (statics w2))
    then Some (false, w2)
    else begin_setup buttonPins n w2.
Proof.
  unfold begin_tail. fold (begin_setup buttonPins n).
  destruct w as [[n0 p0 s0 b0] h].
  unfold bind, store_numberOfButtons, store_buttonPins, store_buttonStatus,
    modify_statics, new_array, load, after_alloc, allocated.
  cbn [statics board tick_board hw_tick heap_grants _buttonPins _buttonStatus].
  destruct (heap_grants h (hw_tick h)), (heap_grants h (S (hw_tick h))); reflexivity.
Qed.

Lemma setup_keeps_refl w : setup_keeps w w.
Proof. unfold setup_keeps; auto. Qed.

Lemma setup_keeps_trans w1 w2 w3 :
  setup_keeps w1 w2 -> setup_keeps w2 w3 -> setup_keeps w1 w3.
Proof. unfold setup_keeps. intuition congruence. Qed.

Lemma copy_body_keeps buttonPins i w w' :
  (v <- arg_at buttonPins i ;;
   pin_store i v ;;
   v' <- arg_at buttonPins i ;;
   pinMode_INPUT_PULLUP v') w = Some (tt, w') ->
  setup_keeps w w'.
Proof.
  unfold bind, arg_at, pin_store, load, bind.
  destruct (deref buttonPins i) as [v|]; try discriminate.
  destruct (assign (_buttonPins (statics w)) i v) as [p'|]; try discriminate.
  simpl. intros H; inversion H; subst. unfold setup_keeps; simpl; auto.
Qed.

Lemma attach_body_keeps buttonPins i w w' :
  (v <- arg_at buttonPins i ;;
   irq <- pinToInterrupt v ;;
   attachInterrupt irq) w = Some (tt, w') ->
  setup_keeps w w'.
Proof.
  unfold bind, arg_at, pinToInterrupt, attachInterrupt, modify_board.
  destruct (deref buttonPins i) as [v|]; try discriminate.
  intros H; inversion H; subst. unfold setup_keeps; simpl; auto.
Qed.

(** [begin_setup] only ever answers true, and then the registry is
    begun with the count and the entries it was given. *)
Lemma begin_setup_inv buttonPins n w r w' :
  begin_setup buttonPins n w = Some (r, w') ->
  r = true /\
  _begun (statics w') = true /\
  _numberOfButtons (statics w') = _numberOfButtons (statics w) /\
  _buttonStatus (statics w') = _buttonStatus (statics w).
Proof.
  unfold begin_setup, for_upto. intros H.
  unfold bind at 1 in H.
  destruct (for_from 0 n _ w) as [[[] w1]|] eqn:E1; try discriminate.
  apply (for_from_preserves setup_keeps _ setup_keeps_refl setup_keeps_trans
           (copy_body_keeps buttonPins)) in E1.
  unfold bind at 1 in H. unfold delay, modify_board in H.
  unfold bind at 1 in H.
  destruct (for_from 0 n _ _) as [[[] w2]|] eqn:E2; try discriminate.
  apply (for_from_preserves setup_keeps _ setup_keeps_refl setup_keeps_trans
           (attach_body_keeps buttonPins)) in E2.
  unfold bind, store_begun, modify_statics, ret in H. inversion H; subst; simpl.
  destruct E1 as (A1 & B1 & C1), E2 as (A2 & B2 & C2). simpl in *.
  repeat split; congruence.
Qed.

Lemma detach_all_In h : forall pins bound irq,
  In irq (detach_all h pins bound) ->
  In irq bound /\ forall pin, In pin pins -> digitalPinToInterrupt h pin <> irq.
Proof.
  unfold detach_all.
  induction pins as [|p pins IH]; intros bound irq H; simpl in *.
  - split; [assumption | intros pin []].
  - apply IH in H. destruct H as [H1 H2].
    apply in_remove in H1. destruct H1 as [H1 H3].
    split; auto. intros pin [->|Hin]; auto.
Qed.

Lemma detach_loop_run : forall ptodo pdone w,
  _buttonPins (statics w) = live (pdone ++ ptodo) ->
  for_from (length pdone) (length ptodo)
    (fun i => pin <- pin_at i ;; irq <- pinToInterrupt pin ;; detachInterrupt irq) w
  = Some (tt, on_board (set_isr_attached
                          (detach_all (board w) ptodo (isr_attached (board w)))
                          (board w)) w).
Proof.
  induction ptodo as [|pin ptodo IH]; intros pdone w Hp.
  - simpl. unfold ret, on_board. destruct w as [s []]; reflexivity.
  - cbn [length for_from].
    erewrite bind_run.
    2:{ erewrite bind_run; [| solve [ eapply pin_at_run; eauto using nth_error_app_here ] ].
        unfold bind, pinToInterrupt, detachInterrupt, modify_board. reflexivity. }
    assert (Hlen : S (length pdone) = length (pdone ++ [pin]))
      by (rewrite length_app; simpl; lia).
    rewrite Hlen, IH.
    + reflexivity.
    + simpl. rewrite Hp, <- app_assoc. reflexivity.
Qed.

Lemma stop_run w pins cells :
  started w pins cells -> stop w = Some (tt, stopped w pins).
Proof.
  intros [Hb Hp Hs Hn Hc]. destruct w as [[n p s b] h]. simpl in *. subst.
  unfold stop, for_upto.
  erewrite bind_run by reflexivity. cbn [negb statics _begun].
  erewrite bind_run by reflexivity. cbn [statics _numberOfButtons].
  erewrite bind_run by (apply (detach_loop_run pins []); reflexivity).
  reflexivity.
Qed.

Lemma stop_noop w : _begun (statics w) = false -> stop w = Some (tt, w).
Proof. intros H. unfold stop, bind, load. now rewrite H. Qed.

Lemma list_store_app {A} (v : A) : forall (l1 l2 : list A) (z : A),
  list_store (length l1) v (l1 ++ z :: l2) = Some (l1 ++ v :: l2).
Proof. induction l1; intros; simpl; auto. now rewrite IHl1. Qed.

(** The first loop of [begin], resumed at index [length sdone]. *)
Lemma copy_loop_run : forall stodo sdone zeros tail w,
  length zeros = length stodo ->
  _buttonPins (statics w) = live (sdone ++ zeros) ->
  for_from (length sdone) (length stodo)
    (fun i =>
       v <- arg_at (live (sdone ++ stodo ++ tail)) i ;;
       pin_store i v ;;
       v' <- arg_at (live (sdone ++ stodo ++ tail)) i ;;
       pinMode_INPUT_PULLUP v') w
  = Some (tt, with_pins (sdone ++ stodo)
                (on_board (set_pullup_pins
                             (enter_all stodo (pullup_pins (board w))) (board w)) w)).
Proof.
  induction stodo as [|v stodo IH]; intros sdone [|z zeros] tail w Hl Hp;
    simpl in Hl; try discriminate.
  - simpl. unfold ret, with_pins, on_board. rewrite app_nil_r in *.
    destruct w as [[n p s b] []]; simpl in *; subst; reflexivity.
  - cbn [length for_from].
    assert (Harg : forall w0, arg_at (live (sdone ++ (v :: stodo) ++ tail))
                                (length sdone) w0 = Some (v, w0)).
    { intros w0. unfold arg_at, deref. simpl. now rewrite nth_error_app_here. }
    erewrite bind_run.
    2:{ erewrite bind_run by apply Harg.
        erewrite bind_run.
        2:{ unfold pin_store. erewrite bind_run by reflexivity.
            rewrite Hp. unfold assign. rewrite list_store_app. reflexivity. }
        erewrite bind_run by apply Harg.
        reflexivity. }
    assert (Hlen : S (length sdone) = length (sdone ++ [v]))
      by (rewrite length_app; simpl; lia).
    rewrite Hlen.
    replace (sdone ++ (v :: stodo) ++ tail) with ((sdone ++ [v]) ++ stodo ++ tail)
      by (rewrite <- app_assoc; reflexivity).
    rewrite (IH (sdone ++ [v]) zeros tail).
    + unfold with_pins, on_board; simpl. rewrite <- app_assoc. reflexivity.
    + lia.
    + simpl. rewrite <- app_assoc. reflexivity.
Qed.

(** The second loop of [begin], resumed at index [length sdone]. *)
Lemma attach_loop_run : forall stodo sdone tail w,
  for_from (length sdone) (length stodo)
    (fun i =>
       v <- arg_at (live (sdone ++ stodo ++ tail)) i ;;
       irq <- pinToInterrupt v ;;
       attachInterrupt irq) w
  = Some (tt, on_board (set_isr_attached
                          (enter_all (map (digitalPinToInterrupt (board w)) stodo)
                                     (isr_attached (board w))) (board w)) w).
Proof.
  induction stodo as [|v stodo IH]; intros sdone tail w.
  - simpl. unfold ret, on_board. destruct w as [s []]; reflexivity.
  - cbn [length for_from].
    erewrite bind_run.
    2:{ erewrite bind_run.
        2:{ unfold arg_at, deref. simpl. rewrite nth_error_app_here. reflexivity. }
        reflexivity. }
    assert (Hlen : S (length sdone) = length (sdone ++ [v]))
      by (rewrite length_app; simpl; lia).
    rewrite Hlen.
    replace (sdone ++ (v :: stodo) ++ tail) with ((sdone ++ [v]) ++ stodo ++ tail)
      by (rewrite <- app_assoc; reflexivity).
    rewrite IH. reflexivity.
Qed.

Lemma begin_setup_run_split stodo tail w :
  _buttonPins (statics w) = live (repeat 0%Z (length stodo)) ->
  begin_setup (live (stodo ++ tail)) (length stodo) w
  = Some (true,
          let h := board w in
          mkWorld (mkStatics (_numberOfButtons (statics w)) (live stodo)
                             (_buttonStatus (statics w)) true)
            (mkHardware (S (hw_tick h)) (pin_level h) (uptime_ms h) (heap_grants h)
               (digitalPinToInterrupt h)
               (enter_all stodo (pullup_pins h))
               (enter_all (map (digitalPinToInterrupt h) stodo) (isr_attached h)))).
Proof.
  intros Hp. unfold begin_setup, for_upto.
  erewrite bind_run.
  2:{ apply (copy_loop_run stodo [] (repeat 0%Z (length stodo)) tail w).
      - now rewrite repeat_length.
      - exact Hp. }
  erewrite bind_run by reflexivity.
  erewrite bind_run by apply (attach_loop_run stodo [] tail).
  destruct w as [[n0 p s b] h]. reflexivity.
Qed.

Lemma begin_setup_run src n w :
  n <= length src ->
  _numberOfButtons (statics w) = n ->
  _buttonPins (statics w) = live (repeat 0%Z n) ->
  begin_setup (live src) n w
  = Some (true,
          let h := board w in
          let pins := firstn n src in
          mkWorld (mkStatics n (live pins) (_buttonStatus (statics w)) true)
            (mkHardware (S (hw_tick h)) (pin_level h) (uptime_ms h) (heap_grants h)
               (digitalPinToInterrupt h)
               (enter_all pins (pullup_pins h))
               (enter_all (map (digitalPinToInterrupt h) pins) (isr_attached h)))).
Proof.
  intros Hn Hnum Hp.
  assert (Hlen : length (firstn n src) = n) by (rewrite length_firstn; lia).
  pose proof (begin_setup_run_split (firstn n src) (skipn n src) w) as H.
  rewrite firstn_skipn, Hlen, Hnum in H. auto.
Qed.

(** What [begin] builds is a registry whose arrays both hold [n] cells. *)
Lemma begun_world_started src n w :
  n <= length src ->
  started (begun_world src n w) (firstn n src) (repeat Button_ctor n).
Proof.
  intros Hn. split; simpl; auto.
  - rewrite length_firstn. lia.
  - apply repeat_length.
Qed.

Lemma begin_fresh_run src n w :
  _begun (statics w) = false ->
  n <= length src ->
  heap_grants (board w) (hw_tick (board w)) = true ->
  heap_grants (board w) (S (hw_tick (board w))) = true ->
  begin (live src) n w = Some (true, begun_world src n w).
Proof.
  intros Hb Hn H1 H2. rewrite begin_eq. cbn [is_null]. rewrite Hb.
  rewrite begin_tail_eq. unfold after_alloc, allocated. rewrite H1, H2.
  cbn [statics _buttonPins _buttonStatus is_null orb].
  rewrite begin_setup_run by (auto; reflexivity).
  unfold begun_world. cbn.
  replace (hw_tick (board w) + 3) with (S (S (S (hw_tick (board w))))) by lia.
  reflexivity.
Qed.

Lemma begin_restart_run src n w pins cells :
  started w pins cells ->
  n <= length src ->
  heap_grants (board w) (hw_tick (board w)) = true ->
  heap_grants (board w) (S (hw_tick (board w))) = true ->
  begin (live src) n w = Some (true, begun_world src n (stopped w pins)).
Proof.
  intros Hst Hn H1 H2. rewrite begin_eq. cbn [is_null].
  rewrite (started_begun _ _ _ Hst), (stop_run _ _ _ Hst).
  pose proof (begin_fresh_run src n (stopped w pins) eq_refl Hn H1 H2) as H.
  rewrite begin_eq in H. exact H.
Qed.

(** A [begin] given a non-null array that answers false leaves the
    registry not begun. *)
Lemma begin_failure_not_begun buttonPins n w w' :
  is_null buttonPins = false ->
  begin buttonPins n w = Some (false, w') ->
  _begun (statics w') = false.
Proof.
  intros Hnn. rewrite begin_eq, Hnn.
  assert (Htail : forall w1, _begun (statics w1) = false ->
                             begin_tail buttonPins n w1 = Some (false, w') ->
                             _begun (statics w') = false).
  { intros w1 Hb1. rewrite begin_tail_eq. cbv zeta.
    destruct (is_null _ || is_null _).
    - intros H; inversion H; subst. exact Hb1.
    - intros H. apply begin_setup_inv in H. destruct H as [H _]. discriminate. }
  destruct (_begun (statics w)) eqn:Hb.
  - destruct (stop w) as [[[] w1]|] eqn:Hs; try discriminate.
    apply Htail. eapply stop_not_begun; eauto.
  - apply Htail; auto.
Qed.

(** ** The sample registries are what the code builds *)

Lemma sample_started_begin :
  begin (live [2; 3]%Z) 2 (world_init (idle_board 0)) = Some (true, sample_started).
Proof. reflexivity. Qed.

Lemma sample_started_ok :
  started sample_started [2; 3]%Z [Button_ctor; Button_ctor].
Proof. split; reflexivity. Qed.

Lemma sample_pressed_isr :
  button_ISR (with_inputs 100 [2%Z] sample_started) = Some (tt, sample_pressed).
Proof. reflexivity. Qed.

Lemma sample_pressed_ok :
  started sample_pressed [2; 3]%Z [mkButton true true 100; Button_ctor].
Proof. split; reflexivity. Qed.

Lemma sample_acknowledged_ok :
  started sample_acknowledged [2; 3]%Z [mkButton true false 100; Button_ctor].
Proof. split; reflexivity. Qed.

(** * The claims *)

(** ** Accessors on a registry that is not begun *)

(** C4, as stated, fails: before [begin], [up] answers true, being
    the negation of [down]'s default. *)
Lemma up_true_when_not_begun :
  _begun (statics (world_init (idle_board 0))) = false /\
  up 0 false (world_init (idle_board 0)) = Some (true, world_init (idle_board 0)) /\
  eval (up 0 false) (world_init (idle_board 0)) <> Some false.
Proof. repeat split. discriminate. Qed.

(** C4, amended: on a registry that is not begun (never started, or
    stopped), for every id and every clear flag, [clicked], [released],
    [down] and [changed] answer false, [up] answers true, and
    [numberOfButtons] answers 0; none of them changes anything. *)
Theorem accessors_not_begun (w : World) (id : nat) (clear : bool) :
  _begun (statics w) = false ->
  clicked id clear w = Some (false, w) /\
  released id clear w = Some (false, w) /\
  down id clear w = Some (false, w) /\
  up id clear w = Some (true, w) /\
  changed id clear w = Some (false, w) /\
  numberOfButtons w = Some (0, w).
Proof.
  intros Hb.
  assert (Hd : down id clear w = Some (false, w))
    by (rewrite down_eq; now apply accessor_outcome_not_begun).
  assert (Hc : changed id clear w = Some (false, w))
    by (rewrite changed_eq; now apply accessor_outcome_not_begun).
  repeat split; auto.
  - now rewrite clicked_eq, Hc.
  - now rewrite released_eq, Hc.
  - now rewrite up_eq, Hd.
  - now rewrite numberOfButtons_eq, Hb.
Qed.

Lemma accessors_not_begun_witness :
  (_begun (statics (world_init (idle_board 0))) = false /\
   up 1 true (world_init (idle_board 0)) = Some (true, world_init (idle_board 0)) /\
   changed 1 true (world_init (idle_board 0)) = Some (false, world_init (idle_board 0)) /\
   numberOfButtons (world_init (idle_board 0)) = Some (0, world_init (idle_board 0))) /\
  (stop sample_pressed = Some (tt, stopped sample_pressed [2; 3]%Z) /\
   up 0 false (stopped sample_pressed [2; 3]%Z)
   = Some (true, stopped sample_pressed [2; 3]%Z) /\
   clicked 0 true (stopped sample_pressed [2; 3]%Z)
   = Some (false, stopped sample_pressed [2; 3]%Z) /\
   numberOfButtons (stopped sample_pressed [2; 3]%Z)
   = Some (0, stopped sample_pressed [2; 3]%Z)).
Proof.
  pose proof (accessors_not_begun (world_init (idle_board 0)) 1 true eq_refl)
    as (_ & _ & _ & Hu & Hc & Hn).
  pose proof (accessors_not_begun (stopped sample_pressed [2; 3]%Z) 0 false eq_refl)
    as (_ & _ & _ & Hu' & _ & Hn').
  pose proof (accessors_not_begun (stopped sample_pressed [2; 3]%Z) 0 true eq_refl)
    as (Hk' & _).
  split.
  - split; [reflexivity|]. split; [exact Hu|]. split; [exact Hc | exact Hn].
  - split; [reflexivity|]. split; [exact Hu'|]. split; [exact Hk' | exact Hn'].
Defined.

(** ** [clicked] *)

(** What [changed], a non-clearing [down] and [clicked] answer on a
    started registry, and the world they leave. *)
Lemma clicked_end_state (w : World) (pins : list byte) (cells : list Button)
    (id : nat) (e : Button) (clear : bool) :
  started w pins cells ->
  nth_error cells id = Some e ->
  let w1 := if clear
            then with_cells (list_upd id (set_changeFlag false) cells) w
            else w in
  changed id clear w = Some (changeFlag e, w1) /\
  down id false w1 = Some (currentState e, w1) /\
  clicked id clear w = Some (changeFlag e && currentState e, w1) /\
  (forall j, j <> id ->
     deref (_buttonStatus (statics w1)) j = deref (_buttonStatus (statics w)) j) /\
  deref (_buttonStatus (statics w1)) id
  = Some (mkButton (currentState e) (if clear then false else changeFlag e)
                   (lastChangeTime e)).
Proof.
  intros Hst He w1.
  assert (Hw1 : w1 = clear_if clear id w).
  { subst w1. unfold clear_if, clear_changeFlag.
    now rewrite (started_status _ _ _ Hst). }
  assert (Hc : changed id clear w = Some (changeFlag e, w1)).
  { rewrite changed_eq, Hw1. eapply accessor_outcome_started; eauto. }
  assert (Hcells : deref (_buttonStatus (statics w1)) id
                   = Some (mkButton (currentState e)
                             (if clear then false else changeFlag e)
                             (lastChangeTime e))).
  { subst w1. destruct clear; simpl.
    - now rewrite nth_error_list_upd_same, He.
    - rewrite (started_status _ _ _ Hst). simpl. rewrite He. now destruct e. }
  assert (Hd : down id false w1 = Some (currentState e, w1)).
  { rewrite down_eq. unfold accessor_outcome. rewrite Hcells.
    replace (_begun (statics w1)) with true; [reflexivity|].
    subst w1. destruct clear; simpl; now rewrite (started_begun _ _ _ Hst). }
  repeat split; auto.
  - rewrite clicked_eq, Hc. destruct (changeFlag e); simpl; auto.
  - intros j Hj. subst w1. destruct clear; auto. simpl.
    rewrite (started_status _ _ _ Hst). simpl.
    apply nth_error_list_upd_other. congruence.
Qed.

Lemma logged_down_eq id clear s :
  Logged.down id clear s
  = match down id clear (world s) with
    | Some (r, w') =>
        Some (r, mkAudit w' (stores s ++ if _begun (statics (world s))
                                         then clearing_stores clear id else []))
    | None => None
    end.
Proof.
  destruct s as [w log]. rewrite down_eq.
  unfold accessor_outcome, Logged.down, Logged.bind, Logged.lift, load. simpl.
  destruct (_begun (statics w)); simpl.
  2:{ unfold Logged.ret. now rewrite app_nil_r. }
  destruct (deref_status_cases w id) as [(cells & e & Hs & He & ->)|[-> Hu]].
  - destruct clear; simpl.
    + unfold Logged.store_changeFlag, Logged.bind, Logged.lift, Logged.log_store. simpl.
      rewrite (status_store_run _ _ _ _ (set_changeFlag false) Hs He). simpl.
      rewrite (status_at_run _ (list_upd id (set_changeFlag false) cells) id
                 (set_changeFlag false e)).
      * unfold Logged.ret, clear_changeFlag. rewrite Hs. reflexivity.
      * reflexivity.
      * rewrite nth_error_list_upd_same, He. reflexivity.
    + unfold Logged.ret. rewrite (status_at_run _ _ _ _ Hs He), app_nil_r. reflexivity.
  - destruct clear; simpl.
    + unfold Logged.store_changeFlag, Logged.bind, Logged.lift. simpl.
      now rewrite (status_store_undefined _ _ _ Hu).
    + unfold Logged.ret. now rewrite Hu.
Qed.

Lemma logged_changed_eq id clear s :
  Logged.changed id clear s
  = match changed id clear (world s) with
    | Some (r, w') =>
        Some (r, mkAudit w' (stores s ++ if _begun (statics (world s))
                                         then clearing_stores clear id else []))
    | None => None
    end.
Proof.
  destruct s as [w log]. rewrite changed_eq.
  unfold accessor_outcome, Logged.changed, Logged.bind, Logged.lift, load. simpl.
  destruct (_begun (statics w)); simpl.
  2:{ unfold Logged.ret. now rewrite app_nil_r. }
  destruct (deref_status_cases w id) as [(cells & e & Hs & He & ->)|[-> Hu]].
  - rewrite (status_at_run _ _ _ _ Hs He). destruct clear; simpl.
    + unfold Logged.store_changeFlag, Logged.bind, Logged.lift, Logged.log_store. simpl.
      rewrite (status_store_run _ _ _ _ (set_changeFlag false) Hs He). simpl.
      unfold Logged.ret, clear_changeFlag. rewrite Hs. reflexivity.
    + unfold Logged.ret. now rewrite app_nil_r.
  - now rewrite Hu.
Qed.

(** In every world, whenever [clicked] has an outcome, it is the
    outcome of the plain model, reached with exactly the stores
    [changed] makes: one clear of entry [id] on a begun registry asked
    to clear, none otherwise. *)
Lemma logged_clicked_eq id clear s :
  Logged.clicked id clear s
  = match clicked id clear (world s) with
    | Some (r, w') =>
        Some (r, mkAudit w' (stores s ++ if _begun (statics (world s))
                                         then clearing_stores clear id else []))
    | None => None
    end.
Proof.
  unfold Logged.clicked, Logged.bind.
  rewrite logged_changed_eq, clicked_eq.
  destruct (changed id clear (world s)) as [[[|] w1]|]; try reflexivity.
  rewrite logged_down_eq. cbn [world stores].
  destruct (down id false w1) as [[r w2]|]; [|reflexivity].
  destruct (_begun (statics w1)); cbn [clearing_stores]; now rewrite app_nil_r.
Qed.

(** C5: on a started registry and for a valid id, [clicked] answers
    the conjunction of what [changed] (with the caller's clear flag)
    and then a non-clearing [down] answer.  With every store to an
    entry on record: [changed] makes one store, the clear of the change
    flag of entry [id], when asked to clear and none otherwise; the
    [down] sub-call, being called with false, makes none and leaves
    world and log as [changed] left them; so one call of [clicked]
    clears the flag once when asked to and never twice.  All other
    fields and entries are as before, and without the log the outcome
    is that of the plain model. *)
Theorem clicked_clears_once (w : World) (pins : list byte) (cells : list Button)
    (id : nat) (e : Button) (clear : bool) (log : list store_event) :
  started w pins cells ->
  nth_error cells id = Some e ->
  let w1 := if clear
            then with_cells (list_upd id (set_changeFlag false) cells) w
            else w in
  let log1 := log ++ (if clear then [StoreChangeFlag id false] else []) in
  Logged.changed id clear (mkAudit w log) = Some (changeFlag e, mkAudit w1 log1) /\
  Logged.down id false (mkAudit w1 log1) = Some (currentState e, mkAudit w1 log1) /\
  Logged.clicked id clear (mkAudit w log)
  = Some (changeFlag e && currentState e, mkAudit w1 log1) /\
  forget_log (Logged.clicked id clear (mkAudit w log)) = clicked id clear w /\
  changed id clear w = Some (changeFlag e, w1) /\
  down id false w1 = Some (currentState e, w1) /\
  clicked id clear w = Some (changeFlag e && currentState e, w1) /\
  (forall j, j <> id ->
     deref (_buttonStatus (statics w1)) j = deref (_buttonStatus (statics w)) j) /\
  deref (_buttonStatus (statics w1)) id
  = Some (mkButton (currentState e) (if clear then false else changeFlag e)
                   (lastChangeTime e)).
Proof.
  intros Hst He w1 log1.
  destruct (clicked_end_state w pins cells id e clear Hst He)
    as (Hc & Hd & Hk & Hother & Hid).
  fold w1 in Hc, Hd, Hk, Hother, Hid.
  assert (Hb : _begun (statics w) = true) by apply (started_begun _ _ _ Hst).
  assert (Hlc : Logged.changed id clear (mkAudit w log)
                = Some (changeFlag e, mkAudit w1 log1)).
  { rewrite logged_changed_eq. cbn [world stores]. rewrite Hc, Hb. reflexivity. }
  assert (Hld : Logged.down id false (mkAudit w1 log1)
                = Some (currentState e, mkAudit w1 log1)).
  { rewrite logged_down_eq. cbn [world stores]. rewrite Hd.
    destruct (_begun (statics w1)); cbn [clearing_stores]; now rewrite app_nil_r. }
  assert (Hlk : Logged.clicked id clear (mkAudit w log)
                = Some (changeFlag e && currentState e, mkAudit w1 log1)).
  { rewrite logged_clicked_eq. cbn [world stores]. rewrite Hk, Hb. reflexivity. }
  split; [exact Hlc|]. split; [exact Hld|]. split; [exact Hlk|].
  split; [rewrite Hlk, Hk; reflexivity|].
  split; [exact Hc|]. split; [exact Hd|]. split; [exact Hk|].
  split; [exact Hother | exact Hid].
Qed.

Lemma clicked_clears_once_witness :
  started sample_pressed [2; 3]%Z [mkButton true true 100; Button_ctor] /\
  Logged.clicked 0 true (mkAudit sample_pressed [])
  = Some (true, mkAudit sample_acknowledged [StoreChangeFlag 0 false]) /\
  Logged.clicked 0 false (mkAudit sample_pressed [])
  = Some (true, mkAudit sample_pressed []) /\
  clicked 0 true sample_pressed = Some (true, sample_acknowledged) /\
  clicked 0 true sample_acknowledged = Some (false, sample_acknowledged).
Proof.
  pose proof (clicked_clears_once sample_pressed [2; 3]%Z
                [mkButton true true 100; Button_ctor] 0 (mkButton true true 100) true []
                sample_pressed_ok eq_refl) as (_ & _ & Hl1 & _ & _ & _ & Hk1 & _).
  pose proof (clicked_clears_once sample_pressed [2; 3]%Z
                [mkButton true true 100; Button_ctor] 0 (mkButton true true 100) false []
                sample_pressed_ok eq_refl) as (_ & _ & Hl2 & _).
  pose proof (clicked_clears_once sample_acknowledged [2; 3]%Z
                [mkButton true false 100; Button_ctor] 0 (mkButton true false 100) true []
                sample_acknowledged_ok eq_refl) as (_ & _ & _ & _ & _ & _ & Hk3 & _).
  split; [exact sample_pressed_ok|]. split; [exact Hl1|]. split; [exact Hl2|].
  split; [exact Hk1 | exact Hk3].
Defined.

(** ** [up] against [down] *)

(** C7: in every world, for every id and flag, [up] is defined exactly
    when [down] is, answers the negation of [down]'s answer, and leaves
    the same world behind: the same change flag is cleared, or none. *)
Theorem up_is_not_down (w : World) (id : nat) (clear : bool) :
  up id clear w = match down id clear w with
                  | Some (d, w') => Some (negb d, w')
                  | None => None
                  end /\
  exec (up id clear) w = exec (down id clear) w /\
  eval (up id clear) w = option_map negb (eval (down id clear) w) /\
  down id clear w = accessor_outcome currentState id clear w.
Proof.
  unfold exec, eval. rewrite !up_eq, !down_eq.
  repeat split;
    destruct (accessor_outcome currentState id clear w) as [[d w']|]; reflexivity.
Qed.

(** ** [changed] *)

Lemma poll_changed_quiet w pins cells id e clear : forall n,
  started w pins cells -> nth_error cells id = Some e ->
  changeFlag e = false ->
  poll (changed id clear) n w = Some (repeat false n, w).
Proof.
  intros n Hst He Hf.
  assert (Hw : clear_if clear id w = w).
  { destruct clear; auto. simpl. unfold clear_changeFlag.
    rewrite (started_status _ _ _ Hst), list_upd_id.
    - now apply with_cells_same, (started_status _ _ _ Hst).
    - intros e0 He0. rewrite He in He0. inversion He0; subst.
      destruct e0; simpl in *; now subst. }
  induction n as [|n IH]; simpl; auto.
  erewrite bind_run.
  2:{ rewrite changed_eq. erewrite accessor_outcome_started; eauto. }
  rewrite Hw, Hf. erewrite bind_run by exact IH. reflexivity.
Qed.

(** With the flag up, non-clearing polls keep answering true, and of
    clearing polls only the first does. *)
Lemma poll_changed_pending w pins cells id e :
  started w pins cells -> nth_error cells id = Some e ->
  changeFlag e = true ->
  forall n,
    poll (changed id false) n w = Some (repeat true n, w) /\
    poll (changed id true) (S n) w
    = Some (true :: repeat false n, clear_changeFlag id w).
Proof.
  intros Hst He Hf n.
  assert (Hc : forall clear, changed id clear w = Some (true, clear_if clear id w)).
  { intros clear. rewrite changed_eq, <- Hf. eapply accessor_outcome_started; eauto. }
  split.
  - induction n as [|n IH]; simpl; auto.
    erewrite bind_run by apply (Hc false). simpl.
    erewrite bind_run by exact IH. reflexivity.
  - cbn [poll]. erewrite bind_run by apply (Hc true).
    erewrite bind_run.
    2:{ eapply (poll_changed_quiet _ pins _ id _ true n).
        - apply started_clear_changeFlag; eauto.
        - rewrite nth_error_list_upd_same, He. reflexivity.
        - reflexivity. }
    reflexivity.
Qed.

(** C6: on a started registry [changed] answers the change flag as
    it was on entry and clears it afterwards exactly when asked to.
    Hence, with the flag up as an accepted transition leaves it and no
    pass of the engine in between, any number of non-clearing polls all
    answer true and change nothing, while of clearing polls the first
    answers true and every later one false. *)
Theorem changed_reports_pre_clear_flag (w : World) (pins : list byte)
    (cells : list Button) (id : nat) (e : Button) :
  started w pins cells ->
  nth_error cells id = Some e ->
  changed id false w = Some (changeFlag e, w) /\
  changed id true w
  = Some (changeFlag e, with_cells (list_upd id (set_changeFlag false) cells) w) /\
  nth_error (list_upd id (set_changeFlag false) cells) id
  = Some (mkButton (currentState e) false (lastChangeTime e)) /\
  (changeFlag e = true ->
   forall n,
     poll (changed id false) n w = Some (repeat true n, w) /\
     poll (changed id true) (S n) w
     = Some (true :: repeat false n,
             with_cells (list_upd id (set_changeFlag false) cells) w)).
Proof.
  intros Hst He.
  assert (Hc : forall clear, changed id clear w = Some (changeFlag e, clear_if clear id w)).
  { intros clear. rewrite changed_eq. eapply accessor_outcome_started; eauto. }
  assert (Hw : clear_changeFlag id w
               = with_cells (list_upd id (set_changeFlag false) cells) w).
  { unfold clear_changeFlag. now rewrite (started_status _ _ _ Hst). }
  assert (Hnth : nth_error (list_upd id (set_changeFlag false) cells) id
                 = Some (mkButton (currentState e) false (lastChangeTime e))).
  { now rewrite nth_error_list_upd_same, He. }
  repeat split.
  - apply (Hc false).
  - rewrite <- Hw. apply (Hc true).
  - exact Hnth.
  - apply (poll_changed_pending w pins cells id e Hst He H n).
  - rewrite <- Hw. apply (poll_changed_pending w pins cells id e Hst He H n).
Qed.

Lemma changed_reports_pre_clear_flag_witness :
  started sample_pressed [2; 3]%Z [mkButton true true 100; Button_ctor] /\
  poll (changed 0 false) 2 sample_pressed
  = Some ([true; true], sample_pressed) /\
  poll (changed 0 true) 3 sample_pressed
  = Some ([true; false; false], sample_acknowledged).
Proof.
  split; [exact sample_pressed_ok|].
  exact (proj2 (proj2 (proj2 (changed_reports_pre_clear_flag sample_pressed
           [2; 3]%Z [mkButton true true 100; Button_ctor] 0 (mkButton true true 100)
           sample_pressed_ok eq_refl))) eq_refl 2).
Defined.

(** ** The frame of the main-line accessors *)

Lemma status_store_clear_frame i w w' :
  status_store i (set_changeFlag false) w = Some (tt, w') -> flags_only w w'.
Proof.
  intros H. apply status_store_inv in H. destruct H as (cells & e & Hs & He & ->).
  replace (with_cells (list_upd i (set_changeFlag false) cells) w)
    with (clear_changeFlag i w).
  - apply flags_only_clear.
  - unfold clear_changeFlag. now rewrite Hs.
Qed.

(** The loop of [clearAllChangeFlags], resumed at index [length done]. *)
Lemma clear_loop_run : forall todo done w,
  _buttonStatus (statics w) = live (done ++ todo) ->
  for_from (length done) (length todo)
    (fun i => status_store i (set_changeFlag false)) w
  = Some (tt, with_cells (done ++ map (set_changeFlag false) todo) w).
Proof.
  induction todo as [|e todo IH]; intros done w Hs.
  - simpl. unfold ret. rewrite app_nil_r in *. now rewrite with_cells_same.
  - cbn [length for_from].
    erewrite bind_run
      by (eapply status_store_run; eauto using nth_error_app_here).
    rewrite list_upd_app.
    assert (Hlen : S (length done) = length (done ++ [set_changeFlag false e]))
      by (rewrite length_app; simpl; lia).
    rewrite Hlen, IH.
    + simpl. rewrite <- app_assoc. reflexivity.
    + simpl. rewrite <- app_assoc. reflexivity.
Qed.

(** On a started registry [clearAllChangeFlags] lowers every flag. *)
Lemma clearAllChangeFlags_run w pins cells :
  started w pins cells ->
  clearAllChangeFlags w = Some (tt, with_cells (map (set_changeFlag false) cells) w).
Proof.
  intros [Hb Hp Hs Hn Hc]. unfold clearAllChangeFlags, for_upto.
  erewrite bind_run by reflexivity. rewrite Hb. cbn [negb].
  erewrite bind_run by reflexivity. rewrite <- Hc.
  apply (clear_loop_run cells [] w Hs).
Qed.

(** C10: whatever [down], [up], [changed] or [clicked] return, the
    world they leave differs from the one they found at most by change
    flags that went from true to false -- [currentState] and
    [lastChangeTime] of every entry, the pins, the count, the begun flag
    and the board are as before -- and with a false clear flag it is the
    very same world; [clearAllChangeFlags] too only lowers change
    flags. *)
Theorem accessors_only_clear_flags (w w' : World) :
  (forall (id : nat) (clear r : bool),
     down id clear w = Some (r, w') \/ up id clear w = Some (r, w') \/
     changed id clear w = Some (r, w') \/ clicked id clear w = Some (r, w') ->
     (clear = false -> w' = w) /\ flags_only w w') /\
  (clearAllChangeFlags w = Some (tt, w') -> flags_only w w').
Proof.
  split.
  - intros id clear r [H|[H|[H|H]]].
    + rewrite down_eq in H. eapply accessor_outcome_frame; eauto.
    + rewrite up_eq, down_eq in H.
      destruct (accessor_outcome currentState id clear w) as [[d w1]|] eqn:E;
        try discriminate.
      inversion H; subst. eapply accessor_outcome_frame; eauto.
    + rewrite changed_eq in H. eapply accessor_outcome_frame; eauto.
    + rewrite clicked_eq, changed_eq in H.
      destruct (accessor_outcome changeFlag id clear w) as [[c w1]|] eqn:E;
        try discriminate.
      apply accessor_outcome_frame in E.
      destruct c.
      * rewrite down_eq in H. apply accessor_outcome_frame in H.
        destruct H as [H _]. rewrite (H eq_refl). exact E.
      * inversion H; subst. exact E.
  - unfold clearAllChangeFlags, bind, load.
    destruct (_begun (statics w)); simpl.
    + apply (for_from_preserves flags_only _ flags_only_refl flags_only_trans
               status_store_clear_frame).
    + unfold ret. intros H; inversion H; subst. apply flags_only_refl.
Qed.

Lemma accessors_only_clear_flags_witness :
  (clicked 0 true sample_pressed = Some (true, sample_acknowledged) /\
   flags_only sample_pressed sample_acknowledged) /\
  (clearAllChangeFlags sample_pressed = Some (tt, sample_acknowledged) /\
   flags_only sample_pressed sample_acknowledged) /\
  (down 0 false sample_pressed = Some (true, sample_pressed) /\
   flags_only sample_pressed sample_pressed).
Proof.
  split; [|split]; (split; [reflexivity|]).
  - exact (proj2 (proj1 (accessors_only_clear_flags sample_pressed sample_acknowledged)
                    0 true true (or_intror (or_intror (or_intror eq_refl))))).
  - exact (proj2 (accessors_only_clear_flags sample_pressed sample_acknowledged) eq_refl).
  - exact (proj2 (proj1 (accessors_only_clear_flags sample_pressed sample_pressed)
                    0 false true (or_introl eq_refl))).
Defined.

(** ** The debounce engine *)

(** One call of [button_ISR] on a started registry always returns, and
    leaves at every index the entry [isr_entry] computes. *)
Lemma button_ISR_entries w pins cells :
  started w pins cells ->
  let h := board w in
  exists cells' k',
    button_ISR w = Some (tt, with_cells_on cells' (board_at k' h) w) /\
    length cells' = length cells /\
    forall i pin e,
      nth_error pins i = Some pin -> nth_error cells i = Some e ->
      nth_error cells' i
      = Some (isr_entry h (isr_tick h (hw_tick h) pins cells i) pin e).
Proof.
  intros Hst h.
  exists (fst (isr_scan h (hw_tick h) pins cells)),
         (snd (isr_scan h (hw_tick h) pins cells)).
  split; [apply (button_ISR_run _ _ _ Hst)|]. split.
  - apply isr_scan_length.
    rewrite (started_npins _ _ _ Hst), (started_ncells _ _ _ Hst). reflexivity.
  - intros i pin e Hp He. now apply isr_scan_nth.
Qed.

(** C1: one call of [button_ISR] on a started registry returns, and
    for every registered index [i], with [raw] the negation of the level
    read on line [i]: if [raw] equals [currentState] the entry is
    unchanged; otherwise [lastChangeTime] becomes the clock reading
    taken for the store, and [currentState] becomes [raw] and
    [changeFlag] true exactly when the clock reading taken for the test
    is strictly greater than [lastChangeTime + DEBOUNCE_DELAY] (the sum
    computed on [unsigned long]); at or below that bound both fields
    keep their values.  The pins, the count and the begun flag are
    untouched. *)
Theorem button_ISR_applies_debounce_transition (w : World) (pins : list byte)
    (cells : list Button) :
  started w pins cells ->
  let h := board w in
  exists (cells' : list Button) (k' : nat),
    button_ISR w = Some (tt, with_cells_on cells' (board_at k' h) w) /\
    length cells' = length cells /\
    forall (i : nat) (pin : byte) (e : Button),
      nth_error pins i = Some pin ->
      nth_error cells i = Some e ->
      let k := isr_tick h (hw_tick h) pins cells i in
      let raw := negb (pin_level h k pin) in
      let now_test := wrap (uptime_ms h (S k)) in
      let now_store := wrap (uptime_ms h (S (S k))) in
      let bound := ((lastChangeTime e + DEBOUNCE_DELAY) mod 2 ^ 32)%Z in
      exists e' : Button,
        nth_error cells' i = Some e' /\
        (raw = currentState e -> e' = e) /\
        (raw <> currentState e ->
         lastChangeTime e' = now_store /\
         ((now_test > bound)%Z ->
          currentState e' = raw /\ changeFlag e' = true) /\
         ((now_test <= bound)%Z ->
          currentState e' = currentState e /\ changeFlag e' = changeFlag e)).
Proof.
  intros Hst h.
  destruct (button_ISR_entries w pins cells Hst) as (cells' & k' & Hrun & Hlen & Hnth).
  exists cells', k'. repeat split; auto.
  intros i pin e Hp He k raw now_test now_store bound.
  exists (isr_entry h k pin e). split; [now apply Hnth|].
  unfold isr_entry, raw_state, quiet_window_passed.
  fold raw now_test now_store.
  change (ulong_add (lastChangeTime e) DEBOUNCE_DELAY) with bound.
  destruct (Bool.eqb raw (currentState e)) eqn:Heq.
  - apply Bool.eqb_prop in Heq. split; [reflexivity | intros Hne; contradiction].
  - apply Bool.eqb_false_iff in Heq. split; [intros; contradiction|]. intros _.
    destruct (bound <? now_test)%Z eqn:Hlt;
      cbn [currentState changeFlag lastChangeTime].
    + apply Z.ltb_lt in Hlt.
      split; [reflexivity|]. split; [intros _; split; reflexivity|].
      intros Hle. exfalso. apply (Z.lt_irrefl bound).
      now apply Z.lt_le_trans with now_test.
    + apply Z.ltb_ge in Hlt.
      split; [reflexivity|]. split; [|intros _; split; reflexivity].
      intros Hgt. exfalso. apply Z.gt_lt in Hgt. apply (Z.lt_irrefl bound).
      now apply Z.lt_le_trans with now_test.
Qed.

(** A press at uptime 100 ms is accepted (100 > 0 + 50); the idle
    neighbour is left alone. *)
Lemma button_ISR_applies_debounce_transition_witness :
  started (with_inputs 100 [2%Z] sample_started)
          [2; 3]%Z [Button_ctor; Button_ctor] /\
  exists (cells' : list Button) (k' : nat),
    button_ISR (with_inputs 100 [2%Z] sample_started)
    = Some (tt, with_cells_on cells' (board_at k' (board (with_inputs 100 [2%Z] sample_started)))
                  (with_inputs 100 [2%Z] sample_started)) /\
    length cells' = 2 /\
    (exists e0, nth_error cells' 0 = Some e0 /\
                currentState e0 = true /\ changeFlag e0 = true /\
                lastChangeTime e0 = 100%Z) /\
    nth_error cells' 1 = Some Button_ctor.
Proof.
  assert (Hst : started (with_inputs 100 [2%Z] sample_started)
                        [2; 3]%Z [Button_ctor; Button_ctor])
    by (split; reflexivity).
  split; [exact Hst|].
  destruct (button_ISR_applies_debounce_transition _ _ _ Hst)
    as (cells' & k' & Hrun & Hlen & Hnth).
  exists cells', k'. split; [exact Hrun|]. split; [exact Hlen|]. split.
  - destruct (Hnth 0 2%Z Button_ctor eq_refl eq_refl) as (e0 & He0 & _ & Hdiv).
    exists e0. split; [exact He0|].
    destruct (Hdiv ltac:(discriminate)) as (Hlast & Hacc & _).
    destruct (Hacc eq_refl) as [Hcur Hflag].
    repeat split; assumption.
  - destruct (Hnth 1 3%Z Button_ctor eq_refl eq_refl) as (e1 & He1 & Hsame & _).
    rewrite He1. f_equal. apply Hsame. reflexivity.
Defined.

(** The engine keeps a started registry started. *)
Lemma button_ISR_started w pins cells cells' k' :
  started w pins cells -> length cells' = length cells ->
  started (with_cells_on cells' (board_at k' (board w)) w) pins cells'.
Proof.
  intros [Hb Hp Hs Hn Hc] Hlen. split; simpl; auto. congruence.
Qed.

(** After a pass of the engine that accepts a transition on line [id],
    the change is pending: non-clearing polls of [changed] answer true
    as often as they are made, and of clearing polls the first answers
    true and the later ones false. *)
Lemma accepted_transition_pending w pins cells id pin e :
  started w pins cells ->
  nth_error pins id = Some pin -> nth_error cells id = Some e ->
  let h := board w in
  let k := isr_tick h (hw_tick h) pins cells id in
  raw_state h k pin <> currentState e ->
  quiet_window_passed (lastChangeTime e) (wrap (uptime_ms h (S k))) = true ->
  exists w',
    button_ISR w = Some (tt, w') /\
    down id false w' = Some (raw_state h k pin, w') /\
    forall n,
      poll (changed id false) n w' = Some (repeat true n, w') /\
      poll (changed id true) (S n) w'
      = Some (true :: repeat false n, clear_changeFlag id w').
Proof.
  intros Hst Hp He h k Hraw Hquiet.
  destruct (button_ISR_entries w pins cells Hst) as (cells' & k' & Hrun & Hlen & Hnth).
  pose proof (button_ISR_started w pins cells cells' k' Hst Hlen) as Hst'.
  specialize (Hnth id pin e Hp He). fold h k in Hnth.
  assert (Hentry : isr_entry h k pin e
                   = mkButton (raw_state h k pin) true (wrap (uptime_ms h (S (S k))))).
  { unfold isr_entry. rewrite Hquiet.
    destruct (Bool.eqb (raw_state h k pin) (currentState e)) eqn:Heq; auto.
    apply Bool.eqb_prop in Heq. contradiction. }
  rewrite Hentry in Hnth.
  exists (with_cells_on cells' (board_at k' (board w)) w).
  split; [exact Hrun|]. split.
  - rewrite down_eq.
    rewrite (accessor_outcome_started currentState _ _ _ _ _ false Hst' Hnth).
    reflexivity.
  - intros n. apply (poll_changed_pending _ pins cells' id _ Hst' Hnth eq_refl n).
Qed.

(** With a clock that stands still during the call -- the handler
    runs with the timer interrupt masked -- both readings are the one
    [now], and the entry is exactly the transition of the spec. *)
Lemma button_ISR_frozen_clock w pins cells t :
  started w pins cells ->
  (forall k, uptime_ms (board w) k = t) ->
  let h := board w in
  let now := wrap t in
  exists cells' k',
    button_ISR w = Some (tt, with_cells_on cells' (board_at k' h) w) /\
    forall i pin e,
      nth_error pins i = Some pin -> nth_error cells i = Some e ->
      let raw := negb (pin_level h (isr_tick h (hw_tick h) pins cells i) pin) in
      nth_error cells' i
      = Some (if Bool.eqb raw (currentState e) then e
              else if (ulong_add (lastChangeTime e) DEBOUNCE_DELAY <? now)%Z
                   then mkButton raw true now
                   else mkButton (currentState e) (changeFlag e) now).
Proof.
  intros Hst Hclock h now.
  destruct (button_ISR_entries w pins cells Hst) as (cells' & k' & Hrun & _ & Hnth).
  exists cells', k'. split; auto.
  intros i pin e Hp He raw. rewrite (Hnth i pin e Hp He).
  unfold isr_entry, raw_state, quiet_window_passed. fold h. rewrite !Hclock.
  reflexivity.
Qed.

(** ** The quiet-window test and the wrap of the clock *)

(** Away from the wrap the test of the code is the test of the spec. *)
Lemma quiet_window_agrees_without_wrap last now :
  (0 <= last)%Z -> (last + DEBOUNCE_DELAY < ULONG_MODULUS)%Z ->
  (last <= now < ULONG_MODULUS)%Z ->
  quiet_window_passed last now = elapsed_quiet_window last now.
Proof.
  unfold quiet_window_passed, elapsed_quiet_window, ulong_add, wrap, DEBOUNCE_DELAY.
  intros H0 H1 H2.
  rewrite !Z.mod_small by (unfold DEBOUNCE_DELAY in *; lia).
  destruct (Z.ltb_spec (last + 50) now), (Z.ltb_spec 50 (now - last)); auto; lia.
Qed.

(** C3 is what the code should do and does not: line 111 compares
    [millis()] with the wrapped sum [lastChangeTime + DEBOUNCE_DELAY].
    With a press accepted 10 ms before the clock wraps, the release
    seen 5 ms later passes the test (the sum has wrapped to 40) and is
    accepted as a transition, where the elapsed-time test rejects it;
    and with a divergence 100 ms before the wrap, one seen 110 ms later
    fails the test, where the elapsed-time test accepts it. *)
Theorem quiet_window_test_not_wrap_safe :
  quiet_window_passed 4294967286 4294967291 = true /\
  elapsed_quiet_window 4294967286 4294967291 = false /\
  option_map (fun w => _buttonStatus (statics w))
    (isr_at 4294967286 [2%Z] sample_started)
  = Some (live [mkButton true true 4294967286; Button_ctor]) /\
  option_map (fun w => _buttonStatus (statics w))
    (match isr_at 4294967286 [2%Z] sample_started with
     | Some w1 => isr_at 4294967291 [] w1
     | None => None
     end)
  = Some (live [mkButton false true 4294967291; Button_ctor]) /\
  quiet_window_passed 4294967196 (wrap 4294967306) = false /\
  elapsed_quiet_window 4294967196 (wrap 4294967306) = true.
Proof. repeat split; vm_compute; reflexivity. Qed.

(** ** [begin] *)

(** C2, as stated, fails: a non-null array with a count of zero is
    accepted; [begin] answers true and the registry is begun, empty. *)
Lemma begin_accepts_empty_line_list :
  begin (live []) 0 (world_init (idle_board 0))
  = Some (true, begun_world [] 0 (world_init (idle_board 0))) /\
  _begun (statics (begun_world [] 0 (world_init (idle_board 0)))) = true /\
  eval (begin (live []) 0) (world_init (idle_board 0)) <> Some false.
Proof. repeat split. discriminate. Qed.

(** C2, amended: [begin] fails on a null line list, whatever the
    count: it answers false and leaves everything as it was, so it arms
    no interrupt and does not set the begun flag.  A non-null list with
    a count of zero is not refused: when both allocations succeed,
    [begin] answers true and the registry is begun with
    [numberOfButtons()] = 0 and no interrupt armed, on a registry that
    was not begun as on one that was (which it stops first). *)
Theorem begin_rejects_null_accepts_empty (w : World) (src : list byte) :
  (forall n : nat, begin nullptr n w = Some (false, w)) /\
  (heap_grants (board w) (hw_tick (board w)) = true ->
   heap_grants (board w) (S (hw_tick (board w))) = true ->
   (_begun (statics w) = false ->
    begin (live src) 0 w = Some (true, begun_world src 0 w) /\
    _begun (statics (begun_world src 0 w)) = true /\
    numberOfButtons (begun_world src 0 w) = Some (0, begun_world src 0 w) /\
    isr_attached (board (begun_world src 0 w)) = isr_attached (board w)) /\
   (forall pins cells, started w pins cells ->
    begin (live src) 0 w = Some (true, begun_world src 0 (stopped w pins)) /\
    _begun (statics (begun_world src 0 (stopped w pins))) = true /\
    numberOfButtons (begun_world src 0 (stopped w pins))
    = Some (0, begun_world src 0 (stopped w pins)) /\
    isr_attached (board (begun_world src 0 (stopped w pins)))
    = detach_all (board w) pins (isr_attached (board w)))).
Proof.
  split; [reflexivity|]. intros H1 H2. split.
  - intros Hb. split; [|repeat split].
    apply begin_fresh_run; auto. lia.
  - intros pins cells Hst. split; [|repeat split].
    eapply begin_restart_run; eauto. lia.
Qed.

Lemma begin_rejects_null_accepts_empty_witness :
  begin nullptr 2 sample_started = Some (false, sample_started) /\
  begin (live [7%Z]) 0 (world_init (idle_board 0))
  = Some (true, begun_world [7%Z] 0 (world_init (idle_board 0))) /\
  begin (live []) 0 sample_started
  = Some (true, begun_world [] 0 (stopped sample_started [2; 3]%Z)).
Proof.
  split; [|split].
  - exact (proj1 (begin_rejects_null_accepts_empty sample_started []) 2).
  - exact (proj1 (proj1 (proj2 (begin_rejects_null_accepts_empty
                                  (world_init (idle_board 0)) [7%Z])
                           eq_refl eq_refl) eq_refl)).
  - exact (proj1 (proj2 (proj2 (begin_rejects_null_accepts_empty sample_started [])
                           eq_refl eq_refl) _ _ sample_started_ok)).
Defined.

(** When the heap refuses either array, [begin] answers false with
    the registry not begun and no interrupt armed. *)
Lemma begin_allocation_failure src n w :
  _begun (statics w) = false ->
  heap_grants (board w) (hw_tick (board w)) = false \/
  heap_grants (board w) (S (hw_tick (board w))) = false ->
  begin (live src) n w = Some (false, after_alloc n w) /\
  _begun (statics (after_alloc n w)) = false /\
  isr_attached (board (after_alloc n w)) = isr_attached (board w).
Proof.
  intros Hb Hheap. rewrite begin_eq. cbn [is_null]. rewrite Hb, begin_tail_eq.
  cbv zeta. unfold after_alloc at 1 2, allocated. cbn [statics _buttonPins _buttonStatus].
  repeat split; auto.
  destruct Hheap as [-> | ->]; cbn [is_null orb]; auto.
  destruct (heap_grants (board w) (hw_tick (board w))); reflexivity.
Qed.

(** C8: a [begin] that succeeds on a started registry has first run
    [stop] on it -- the old arrays are freed and the interrupts of the
    old pins detached -- and then built the new registry from there:
    the count is the new one, every entry is as its constructor leaves
    it (false, false, 0), and so every accessor, clearing or not, finds
    no pending change and no button down at any valid id. *)
Theorem restart_discards_previous_entries (w w' : World) (pins : list byte)
    (cells : list Button) (buttonPins : ptr byte) (n : nat) :
  started w pins cells ->
  begin buttonPins n w = Some (true, w') ->
  stop w = Some (tt, stopped w pins) /\
  (forall pin : byte, In pin pins ->
     ~ In (digitalPinToInterrupt (board w) pin)
          (isr_attached (board (stopped w pins)))) /\
  begin buttonPins n (stopped w pins) = Some (true, w') /\
  _begun (statics w') = true /\
  numberOfButtons w' = Some (n, w') /\
  _buttonStatus (statics w') = live (repeat (mkButton false false 0) n) /\
  forall (id : nat) (clear : bool), id < n ->
    changed id clear w' = Some (false, w') /\
    clicked id clear w' = Some (false, w') /\
    down id clear w' = Some (false, w') /\
    up id clear w' = Some (true, w').
Proof.
  intros Hst Hbegin.
  pose proof (stop_run _ _ _ Hst) as Hstop.
  assert (Hnn : is_null buttonPins = false).
  { rewrite begin_eq in Hbegin. destruct (is_null buttonPins); [discriminate|auto]. }
  assert (Htail : begin_tail buttonPins n (stopped w pins) = Some (true, w')).
  { rewrite begin_eq, Hnn, (started_begun _ _ _ Hst), Hstop in Hbegin. exact Hbegin. }
  assert (Hagain : begin buttonPins n (stopped w pins) = Some (true, w')).
  { rewrite begin_eq, Hnn. exact Htail. }
  rewrite begin_tail_eq in Htail. cbv zeta in Htail.
  destruct (is_null (_buttonPins (statics (after_alloc n (stopped w pins))))
            || is_null (_buttonStatus (statics (after_alloc n (stopped w pins)))))
    eqn:Hnull; [discriminate|].
  apply Bool.orb_false_iff in Hnull. destruct Hnull as [_ Hnull].
  apply begin_setup_inv in Htail. destruct Htail as (_ & Hb' & Hn' & Hs').
  assert (Hcells : _buttonStatus (statics w') = live (repeat Button_ctor n)).
  { rewrite Hs'. unfold after_alloc, allocated in *.
    cbn [statics _buttonStatus] in *.
    destruct (heap_grants _ _); [reflexivity | discriminate]. }
  assert (Hcount : _numberOfButtons (statics w') = n) by (rewrite Hn'; reflexivity).
  assert (Hfresh : forall id, id < n -> nth_error (repeat Button_ctor n) id = Some Button_ctor).
  { intros id Hid. rewrite nth_error_repeat; auto. }
  assert (Hclr : forall clear id, clear_if clear id w' = w').
  { intros [|] id; auto. simpl. unfold clear_changeFlag. rewrite Hcells.
    rewrite list_upd_id.
    - now apply with_cells_same.
    - intros e He. apply nth_error_In, repeat_spec in He. now subst. }
  assert (Hacc : forall field id clear, id < n ->
            accessor_outcome field id clear w' = Some (field Button_ctor, w')).
  { intros field id clear Hid. unfold accessor_outcome.
    rewrite Hb', Hcells. simpl. rewrite (Hfresh id Hid), Hclr. reflexivity. }
  repeat split; auto.
  - intros pin Hin Hirq. simpl in Hirq.
    apply detach_all_In in Hirq. destruct Hirq as [_ Hirq].
    now apply (Hirq pin Hin).
  - rewrite numberOfButtons_eq, Hb', Hcount. reflexivity.
  - rewrite changed_eq. now apply Hacc.
  - rewrite clicked_eq, changed_eq, Hacc; auto.
  - rewrite down_eq. now apply Hacc.
  - rewrite up_eq, down_eq, Hacc; auto.
Qed.

Lemma restart_discards_previous_entries_witness :
  started sample_pressed [2; 3]%Z [mkButton true true 100; Button_ctor] /\
  begin (live [5%Z]) 1 sample_pressed
  = Some (true, begun_world [5%Z] 1 (stopped sample_pressed [2; 3]%Z)) /\
  numberOfButtons (begun_world [5%Z] 1 (stopped sample_pressed [2; 3]%Z))
  = Some (1, begun_world [5%Z] 1 (stopped sample_pressed [2; 3]%Z)) /\
  changed 0 true (begun_world [5%Z] 1 (stopped sample_pressed [2; 3]%Z))
  = Some (false, begun_world [5%Z] 1 (stopped sample_pressed [2; 3]%Z)).
Proof.
  assert (Hb : begin (live [5%Z]) 1 sample_pressed
               = Some (true, begun_world [5%Z] 1 (stopped sample_pressed [2; 3]%Z)))
    by reflexivity.
  pose proof (restart_discards_previous_entries sample_pressed _ [2; 3]%Z
                [mkButton true true 100; Button_ctor] (live [5%Z]) 1
                sample_pressed_ok Hb) as (_ & _ & _ & _ & Hn & _ & Hacc).
  split; [exact sample_pressed_ok|]. split; [exact Hb|]. split; [exact Hn|].
  exact (proj1 (Hacc 0 true (le_n 1))).
Defined.

(** C9, as stated, fails: on a null line list [begin] answers false
    at its first test, before the running registry is stopped, and the
    registry is still begun, with its two buttons and its pending
    change. *)
Lemma failed_begin_on_null_keeps_registry_begun :
  begin nullptr 2 sample_pressed = Some (false, sample_pressed) /\
  _begun (statics sample_pressed) = true /\
  numberOfButtons sample_pressed = Some (2, sample_pressed) /\
  changed 0 false sample_pressed = Some (true, sample_pressed) /\
  down 0 false sample_pressed = Some (true, sample_pressed) /\
  eval numberOfButtons sample_pressed <> Some 0.
Proof. repeat split. discriminate. Qed.

(** C9, amended: a [begin] that answers false on a non-null line
    list (an allocation failed) leaves the registry not begun: the
    begun flag is false, [numberOfButtons()] answers 0, and at every id
    [clicked], [down] and [changed] answer false and [up] true, without
    changing anything -- also when a registry was started before, which
    [begin] has stopped by then.  A [begin] that answers false on a null
    line list has changed nothing: a registry that was started stays
    started. *)
Theorem failed_begin_leaves_registry (w w' : World) (buttonPins : ptr byte) (n : nat) :
  begin buttonPins n w = Some (false, w') ->
  (buttonPins = nullptr -> w' = w) /\
  (buttonPins <> nullptr ->
   _begun (statics w') = false /\
   numberOfButtons w' = Some (0, w') /\
   forall (id : nat) (clear : bool),
     clicked id clear w' = Some (false, w') /\
     down id clear w' = Some (false, w') /\
     up id clear w' = Some (true, w') /\
     changed id clear w' = Some (false, w')).
Proof.
  intros Hfail. split.
  - intros ->. rewrite begin_eq in Hfail. cbn [is_null] in Hfail.
    now inversion Hfail.
  - intros Hnn.
    assert (Hnull : is_null buttonPins = false)
      by (destruct buttonPins; [now elim Hnn | reflexivity | reflexivity]).
    pose proof (begin_failure_not_begun buttonPins n w w' Hnull Hfail) as Hb.
    split; [exact Hb|].
    split; [rewrite numberOfButtons_eq, Hb; reflexivity|].
    intros id clear.
    assert (Hd : down id clear w' = Some (false, w'))
      by (rewrite down_eq; now apply accessor_outcome_not_begun).
    assert (Hc : changed id clear w' = Some (false, w'))
      by (rewrite changed_eq; now apply accessor_outcome_not_begun).
    split; [now rewrite clicked_eq, Hc|].
    split; [exact Hd|].
    split; [now rewrite up_eq, Hd | exact Hc].
Qed.

Lemma failed_begin_leaves_registry_witness :
  (begin nullptr 2 sample_pressed = Some (false, sample_pressed) /\
   sample_pressed = sample_pressed) /\
  (begin (live [5%Z]) 1 (on_board exhausted_board sample_pressed)
   = Some (false, after_alloc 1 (stopped (on_board exhausted_board sample_pressed)
                                         [2; 3]%Z)) /\
   _begun (statics (after_alloc 1 (stopped (on_board exhausted_board sample_pressed)
                                           [2; 3]%Z))) = false /\
   numberOfButtons (after_alloc 1 (stopped (on_board exhausted_board sample_pressed)
                                           [2; 3]%Z))
   = Some (0, after_alloc 1 (stopped (on_board exhausted_board sample_pressed)
                                     [2; 3]%Z))).
Proof.
  split.
  - split; [reflexivity|].
    exact (proj1 (failed_begin_leaves_registry sample_pressed sample_pressed
                    nullptr 2 eq_refl) eq_refl).
  - split; [reflexivity|].
    destruct (proj2 (failed_begin_leaves_registry
                       (on_board exhausted_board sample_pressed)
                       (after_alloc 1 (stopped (on_board exhausted_board sample_pressed)
                                               [2; 3]%Z))
                       (live [5%Z]) 1 eq_refl) ltac:(discriminate))
      as (Hb & Hn & _).
    split; [exact Hb | exact Hn].
Defined.

(** * Further properties of the code *)

(** ** Lists of bound interrupts *)

Lemma detach_all_keeps h : forall pins bound irq,
  In irq bound ->
  (forall pin, In pin pins -> digitalPinToInterrupt h pin <> irq) ->
  In irq (detach_all h pins bound).
Proof.
  unfold detach_all.
  induction pins as [|p pins IH]; intros bound irq Hin Hne; simpl; auto.
  apply IH.
  - apply in_in_remove; auto. intros E. apply (Hne p); simpl; auto.
  - intros pin Hp. apply Hne. simpl; auto.
Qed.

Lemma enter_all_In : forall l seen x,
  In x (enter_all l seen) <-> In x l \/ In x seen.
Proof.
  unfold enter_all.
  induction l as [|a l IH]; intros seen x; simpl.
  - tauto.
  - rewrite IH. simpl. split.
    + intros [H|[H|H]]; auto. apply in_remove in H. tauto.
    + intros [[H|H]|H]; auto.
      destruct (Z.eq_dec a x) as [E|E]; auto.
      right. right. apply in_in_remove; auto.
Qed.

Lemma remove_as_filter x : forall l,
  remove Z.eq_dec x l = filter (fun y => negb (Z.eqb x y)) l.
Proof.
  induction l as [|a l IH]; simpl; auto.
  destruct (Z.eq_dec x a) as [E|E].
  - subst. rewrite Z.eqb_refl. simpl. exact IH.
  - apply Z.eqb_neq in E. rewrite E. simpl. now rewrite IH.
Qed.

Lemma filter_remove_rejected (P : Z -> bool) x : forall l,
  P x = false -> filter P (remove Z.eq_dec x l) = filter P l.
Proof.
  intros l Hx. induction l as [|a l IH]; simpl; auto.
  destruct (Z.eq_dec x a) as [E|E].
  - subst. now rewrite Hx.
  - simpl. now rewrite IH.
Qed.

Lemma filter_enter_all (P : Z -> bool) : forall l seen,
  (forall x, In x l -> P x = false) ->
  filter P (enter_all l seen) = filter P seen.
Proof.
  unfold enter_all.
  induction l as [|a l IH]; intros seen H; simpl; auto.
  rewrite IH by (intros x Hx; apply H; simpl; auto).
  simpl. rewrite (H a) by (simpl; auto).
  apply filter_remove_rejected. apply H. simpl; auto.
Qed.

Lemma detach_all_filter h : forall pins l,
  detach_all h pins l
  = filter (fun y => negb (existsb (fun p => Z.eqb (digitalPinToInterrupt h p) y) pins)) l.
Proof.
  unfold detach_all.
  induction pins as [|p pins IH]; intros l; simpl.
  - induction l as [|a l IHl]; simpl; auto. now rewrite <- IHl.
  - rewrite IH, remove_as_filter.
    induction l as [|a l IHl]; simpl; auto.
    destruct (Z.eqb (digitalPinToInterrupt h p) a); simpl; auto.
    destruct (existsb _ pins); simpl; auto. now rewrite IHl.
Qed.

Lemma filter_all_kept {A} (P : A -> bool) : forall l,
  (forall x, In x l -> P x = true) -> filter P l = l.
Proof.
  induction l as [|a l IH]; intros H; simpl; auto.
  rewrite (H a) by (simpl; auto). rewrite IH; auto.
  intros x Hx. apply H. simpl; auto.
Qed.

(** Detaching the interrupts of pins that were entered into a table
    holding none of them gives the table back. *)
Lemma detach_enter_round_trip h pins seen :
  (forall pin, In pin pins -> ~ In (digitalPinToInterrupt h pin) seen) ->
  detach_all h pins (enter_all (map (digitalPinToInterrupt h) pins) seen) = seen.
Proof.
  intros Hfresh. rewrite detach_all_filter, filter_enter_all.
  - apply filter_all_kept. intros x Hx.
    destruct (existsb _ pins) eqn:E; auto.
    apply existsb_exists in E. destruct E as (p & Hp & Heq).
    apply Z.eqb_eq in Heq. subst. exfalso. now apply (Hfresh p).
  - intros x Hx. apply in_map_iff in Hx. destruct Hx as (p & <- & Hp).
    apply Bool.negb_false_iff. apply existsb_exists.
    exists p. split; auto. apply Z.eqb_refl.
Qed.

(** ** [stop] *)

(** X1: on a started registry [stop] returns with the registry not
    begun and both arrays freed, and it detaches exactly the interrupts
    of the monitored pins: an interrupt is still bound afterwards if and
    only if it was bound before and belongs to none of them.  The pin
    modes are left as they were, and [numberOfButtons()] answers 0. *)
Theorem stop_releases_registry (w : World) (pins : list byte) (cells : list Button) :
  started w pins cells ->
  exists w' : World,
    stop w = Some (tt, w') /\
    _begun (statics w') = false /\
    _buttonPins (statics w') = dangling /\
    _buttonStatus (statics w') = dangling /\
    numberOfButtons w' = Some (0, w') /\
    pullup_pins (board w') = pullup_pins (board w) /\
    forall irq : Z,
      In irq (isr_attached (board w')) <->
      In irq (isr_attached (board w)) /\
      forall pin, In pin pins -> digitalPinToInterrupt (board w) pin <> irq.
Proof.
  intros Hst. exists (stopped w pins).
  split; [apply (stop_run _ _ _ Hst)|].
  repeat split; try reflexivity.
  - simpl in H. now apply detach_all_In in H.
  - simpl in H. apply detach_all_In in H. destruct H as [_ H]. now apply H.
  - intros [Hin Hne]. simpl. now apply detach_all_keeps.
Qed.

Lemma stop_releases_registry_witness :
  started sample_pressed [2; 3]%Z [mkButton true true 100; Button_ctor] /\
  exists w' : World,
    stop sample_pressed = Some (tt, w') /\
    _begun (statics w') = false /\
    isr_attached (board w') = [] /\
    pullup_pins (board w') = [3; 2]%Z.
Proof.
  split; [exact sample_pressed_ok|].
  destruct (stop_releases_registry sample_pressed _ _ sample_pressed_ok)
    as (w' & Hstop & Hb & _ & _ & _ & Hpull & _).
  exists w'. split; [exact Hstop|]. split; [exact Hb|].
  assert (Hw : w' = stopped sample_pressed [2; 3]%Z).
  { assert (Hs : stop sample_pressed = Some (tt, stopped sample_pressed [2; 3]%Z))
      by reflexivity.
    rewrite Hs in Hstop. now inversion Hstop. }
  subst w'. split; reflexivity.
Defined.

(** X2: [stop] is idempotent: in whatever world it returns, calling
    it again changes nothing. *)
Theorem stop_twice_is_stop_once (w w1 : World) :
  stop w = Some (tt, w1) -> stop w1 = Some (tt, w1).
Proof.
  intros H. apply stop_noop. eapply stop_not_begun; eauto.
Qed.

Lemma stop_twice_is_stop_once_witness :
  stop sample_pressed = Some (tt, stopped sample_pressed [2; 3]%Z) /\
  stop (stopped sample_pressed [2; 3]%Z) = Some (tt, stopped sample_pressed [2; 3]%Z).
Proof.
  split; [reflexivity|].
  exact (stop_twice_is_stop_once sample_pressed (stopped sample_pressed [2; 3]%Z) eq_refl).
Defined.

(** ** [begin] *)

(** X3: on a registry that is not begun, given a non-null array of at
    least [n] pins and a heap that grants both arrays, [begin] answers
    true and leaves a started registry over the first [n] pins: one
    fresh entry per pin, [numberOfButtons()] = [n], every one of those
    pins in INPUT_PULLUP mode with its interrupt bound to the handler,
    and every interrupt bound before still bound. *)
Theorem begin_builds_started_registry (w : World) (src : list byte) (n : nat) :
  _begun (statics w) = false ->
  n <= length src ->
  heap_grants (board w) (hw_tick (board w)) = true ->
  heap_grants (board w) (S (hw_tick (board w))) = true ->
  exists w' : World,
    begin (live src) n w = Some (true, w') /\
    started w' (firstn n src) (repeat Button_ctor n) /\
    numberOfButtons w' = Some (n, w') /\
    (forall pin : byte, In pin (firstn n src) ->
       In pin (pullup_pins (board w')) /\
       In (digitalPinToInterrupt (board w) pin) (isr_attached (board w'))) /\
    (forall irq : Z, In irq (isr_attached (board w)) ->
       In irq (isr_attached (board w'))).
Proof.
  intros Hb Hn H1 H2. exists (begun_world src n w).
  split; [now apply begin_fresh_run|].
  split; [now apply begun_world_started|].
  split; [rewrite numberOfButtons_eq; reflexivity|].
  split.
  - intros pin Hin. simpl. split.
    + apply enter_all_In. now left.
    + apply enter_all_In. left. now apply in_map.
  - intros irq Hin. simpl. apply enter_all_In. now right.
Qed.

Lemma begin_builds_started_registry_witness :
  exists w' : World,
    begin (live [2; 3; 9]%Z) 2 (world_init (idle_board 0)) = Some (true, w') /\
    started w' [2; 3]%Z [Button_ctor; Button_ctor] /\
    numberOfButtons w' = Some (2, w').
Proof.
  destruct (begin_builds_started_registry (world_init (idle_board 0)) [2; 3; 9]%Z 2
              eq_refl (le_S _ _ (le_n 2)) eq_refl eq_refl)
    as (w' & Hbegin & Hst & Hn & _).
  exists w'. split; [exact Hbegin|]. split; [exact Hst | exact Hn].
Defined.

(** X4: when the heap refuses either array, [begin] on a registry
    that is not begun answers false, whatever the array and the count:
    the registry stays not begun, [numberOfButtons()] answers 0 although
    the count has been stored, no pin mode is set and no interrupt is
    bound. *)
Theorem begin_without_memory_fails (w : World) (src : list byte) (n : nat) :
  _begun (statics w) = false ->
  heap_grants (board w) (hw_tick (board w)) = false \/
  heap_grants (board w) (S (hw_tick (board w))) = false ->
  exists w' : World,
    begin (live src) n w = Some (false, w') /\
    _begun (statics w') = false /\
    _numberOfButtons (statics w') = n /\
    numberOfButtons w' = Some (0, w') /\
    pullup_pins (board w') = pullup_pins (board w) /\
    isr_attached (board w') = isr_attached (board w).
Proof.
  intros Hb Hheap. exists (after_alloc n w).
  destruct (begin_allocation_failure src n w Hb Hheap) as (Hrun & Hb' & Hirq).
  repeat split; auto.
  rewrite numberOfButtons_eq, Hb'. reflexivity.
Qed.

Lemma begin_without_memory_fails_witness :
  exists w' : World,
    begin (live [2; 3]%Z) 2 (world_init exhausted_board) = Some (false, w') /\
    _begun (statics w') = false /\
    numberOfButtons w' = Some (0, w').
Proof.
  destruct (begin_without_memory_fails (world_init exhausted_board) [2; 3]%Z 2
              eq_refl (or_introl eq_refl))
    as (w' & Hbegin & Hb & _ & Hn & _).
  exists w'. split; [exact Hbegin|]. split; [exact Hb | exact Hn].
Defined.

(** X5: a restart that runs out of memory has already torn the old
    registry down: [begin] answers false, the registry is not begun,
    and the interrupts of the old pins are detached. *)
Theorem failed_restart_loses_registry (w : World) (pins : list byte)
    (cells : list Button) (src : list byte) (n : nat) :
  started w pins cells ->
  heap_grants (board w) (hw_tick (board w)) = false \/
  heap_grants (board w) (S (hw_tick (board w))) = false ->
  exists w' : World,
    begin (live src) n w = Some (false, w') /\
    _begun (statics w') = false /\
    numberOfButtons w' = Some (0, w') /\
    forall pin : byte, In pin pins ->
      ~ In (digitalPinToInterrupt (board w) pin) (isr_attached (board w')).
Proof.
  intros Hst Hheap.
  destruct (begin_allocation_failure src n (stopped w pins) eq_refl Hheap)
    as (Hrun & Hb' & Hirq).
  exists (after_alloc n (stopped w pins)).
  split.
  - rewrite begin_eq. cbn [is_null].
    rewrite (started_begun _ _ _ Hst), (stop_run _ _ _ Hst).
    rewrite begin_eq in Hrun. exact Hrun.
  - split; [exact Hb'|]. split.
    + rewrite numberOfButtons_eq, Hb'. reflexivity.
    + intros pin Hin Hirq'. rewrite Hirq in Hirq'. simpl in Hirq'.
      apply detach_all_In in Hirq'. destruct Hirq' as [_ Hne].
      now apply (Hne pin Hin).
Qed.

Lemma failed_restart_loses_registry_witness :
  started (on_board exhausted_board sample_pressed) [2; 3]%Z
          [mkButton true true 100; Button_ctor] /\
  exists w' : World,
    begin (live [5%Z]) 1 (on_board exhausted_board sample_pressed) = Some (false, w') /\
    _begun (statics w') = false.
Proof.
  assert (Hst : started (on_board exhausted_board sample_pressed) [2; 3]%Z
                        [mkButton true true 100; Button_ctor])
    by (split; reflexivity).
  split; [exact Hst|].
  destruct (failed_restart_loses_registry _ _ _ [5%Z] 1 Hst (or_introl eq_refl))
    as (w' & Hbegin & Hb & _).
  exists w'. split; [exact Hbegin | exact Hb].
Defined.

(** X6: [begin] followed by [stop] gives the interrupt table back:
    when none of the pins' interrupts was bound before, the bound
    interrupts after the [stop] are those before the [begin], and the
    registry is not begun; the pins stay in INPUT_PULLUP mode, which
    [stop] does not undo. *)
Theorem begin_then_stop_restores_interrupts (w : World) (src : list byte) (n : nat) :
  _begun (statics w) = false ->
  n <= length src ->
  heap_grants (board w) (hw_tick (board w)) = true ->
  heap_grants (board w) (S (hw_tick (board w))) = true ->
  (forall pin : byte, In pin (firstn n src) ->
     ~ In (digitalPinToInterrupt (board w) pin) (isr_attached (board w))) ->
  exists w1 w2 : World,
    begin (live src) n w = Some (true, w1) /\
    stop w1 = Some (tt, w2) /\
    _begun (statics w2) = false /\
    isr_attached (board w2) = isr_attached (board w) /\
    forall pin : byte, In pin (firstn n src) -> In pin (pullup_pins (board w2)).
Proof.
  intros Hb Hn H1 H2 Hfresh.
  exists (begun_world src n w), (stopped (begun_world src n w) (firstn n src)).
  split; [now apply begin_fresh_run|].
  split; [apply (stop_run _ _ _ (begun_world_started src n w Hn))|].
  split; [reflexivity|]. split.
  - simpl. apply (detach_enter_round_trip (board w)). exact Hfresh.
  - intros pin Hin. simpl. apply enter_all_In. now left.
Qed.

Lemma begin_then_stop_restores_interrupts_witness :
  exists w1 w2 : World,
    begin (live [2; 3; 2]%Z) 3 (world_init (idle_board 0)) = Some (true, w1) /\
    stop w1 = Some (tt, w2) /\
    _begun (statics w2) = false /\
    isr_attached (board w2) = [] /\
    In 3%Z (pullup_pins (board w2)).
Proof.
  destruct (begin_then_stop_restores_interrupts (world_init (idle_board 0))
              [2; 3; 2]%Z 3 eq_refl (le_n 3) eq_refl eq_refl)
    as (w1 & w2 & Hbegin & Hstop & Hb & Hirq & Hpull).
  - intros pin _ [].
  - exists w1, w2. split; [exact Hbegin|]. split; [exact Hstop|].
    split; [exact Hb|]. split; [exact Hirq|].
    apply Hpull. simpl. auto.
Defined.

(** ** The accessors *)

(** X7: the accessors do no bounds check: on a started registry an
    id at or past the count makes [down], [up], [changed] and [clicked]
    read past the end of the entry array, which is undefined behaviour,
    with or without a request to clear. *)
Theorem accessors_out_of_range_undefined (w : World) (pins : list byte)
    (cells : list Button) (id : nat) (clear : bool) :
  started w pins cells ->
  _numberOfButtons (statics w) <= id ->
  down id clear w = None /\
  up id clear w = None /\
  changed id clear w = None /\
  clicked id clear w = None.
Proof.
  intros Hst Hid.
  assert (Hnone : forall field, accessor_outcome field id clear w = None).
  { intros field. unfold accessor_outcome.
    rewrite (started_begun _ _ _ Hst), (started_status _ _ _ Hst). simpl.
    replace (nth_error cells id) with (@None Button); auto.
    symmetry. apply nth_error_None. rewrite (started_ncells _ _ _ Hst). exact Hid. }
  repeat split.
  - rewrite down_eq. apply Hnone.
  - rewrite up_eq, down_eq, Hnone. reflexivity.
  - rewrite changed_eq. apply Hnone.
  - rewrite clicked_eq, changed_eq, Hnone. reflexivity.
Qed.

Lemma accessors_out_of_range_undefined_witness :
  started sample_pressed [2; 3]%Z [mkButton true true 100; Button_ctor] /\
  down 2 false sample_pressed = None /\
  clicked 2 true sample_pressed = None.
Proof.
  split; [exact sample_pressed_ok|].
  destruct (accessors_out_of_range_undefined sample_pressed _ _ 2 false
              sample_pressed_ok (le_n 2)) as (Hd & _).
  destruct (accessors_out_of_range_undefined sample_pressed _ _ 2 true
              sample_pressed_ok (le_n 2)) as (_ & _ & _ & Hc).
  split; [exact Hd | exact Hc].
Defined.

Lemma clear_changeFlag_lowered w cells id :
  _buttonStatus (statics w) = live cells ->
  (forall e, nth_error cells id = Some e -> changeFlag e = false) ->
  clear_changeFlag id w = w.
Proof.
  intros Hs Hlow. unfold clear_changeFlag. rewrite Hs, list_upd_id.
  - now apply with_cells_same.
  - intros e He. specialize (Hlow e He). destruct e; simpl in *; now subst.
Qed.

(** X8: on a started registry [clearAllChangeFlags] returns and
    lowers every change flag, keeping [currentState] and
    [lastChangeTime] of every entry: afterwards [changed] answers false
    at every valid id and changes nothing, [down] answers what it
    answered before, and a second [clearAllChangeFlags] changes
    nothing. *)
Theorem clearAllChangeFlags_acknowledges_all (w : World) (pins : list byte)
    (cells : list Button) :
  started w pins cells ->
  exists w' : World,
    clearAllChangeFlags w = Some (tt, w') /\
    started w' pins (map (set_changeFlag false) cells) /\
    clearAllChangeFlags w' = Some (tt, w') /\
    forall (id : nat) (e : Button) (clear : bool),
      nth_error cells id = Some e ->
      changed id clear w' = Some (false, w') /\
      down id clear w' = Some (currentState e, w') /\
      down id false w = Some (currentState e, w).
Proof.
  intros Hst. set (w' := with_cells (map (set_changeFlag false) cells) w).
  assert (Hst' : started w' pins (map (set_changeFlag false) cells)).
  { destruct Hst as [Hb Hp Hs Hn Hc]. split; simpl; auto. now rewrite length_map. }
  exists w'. split; [apply (clearAllChangeFlags_run _ _ _ Hst)|].
  split; [exact Hst'|]. split.
  - rewrite (clearAllChangeFlags_run _ _ _ Hst'). subst w'.
    rewrite map_map. simpl. unfold with_cells. simpl. repeat f_equal.
  - intros id e clear He.
    assert (He' : nth_error (map (set_changeFlag false) cells) id
                  = Some (set_changeFlag false e)).
    { rewrite nth_error_map, He. reflexivity. }
    assert (Hclr : clear_if clear id w' = w').
    { destruct clear; auto. simpl.
      apply (clear_changeFlag_lowered w' _ id (started_status _ _ _ Hst')).
      intros e0 He0. rewrite He' in He0. inversion He0. reflexivity. }
    repeat split.
    + rewrite changed_eq, (accessor_outcome_started changeFlag _ _ _ _ _ clear Hst' He'), Hclr.
      reflexivity.
    + rewrite down_eq, (accessor_outcome_started currentState _ _ _ _ _ clear Hst' He'), Hclr.
      reflexivity.
    + rewrite down_eq, (accessor_outcome_started currentState _ _ _ _ _ false Hst He).
      reflexivity.
Qed.

Lemma clearAllChangeFlags_acknowledges_all_witness :
  started sample_pressed [2; 3]%Z [mkButton true true 100; Button_ctor] /\
  exists w' : World,
    clearAllChangeFlags sample_pressed = Some (tt, w') /\
    changed 0 true w' = Some (false, w') /\
    down 0 true w' = Some (true, w').
Proof.
  split; [exact sample_pressed_ok|].
  destruct (clearAllChangeFlags_acknowledges_all sample_pressed _ _ sample_pressed_ok)
    as (w' & Hrun & _ & _ & Hacc).
  exists w'. split; [exact Hrun|].
  destruct (Hacc 0 (mkButton true true 100) true eq_refl) as (Hc & Hd & _).
  split; [exact Hc | exact Hd].
Defined.

(** ** The debounce engine *)

Lemma wrap_range z : (0 <= wrap z < ULONG_MODULUS)%Z.
Proof. unfold wrap. apply Z.mod_pos_bound. reflexivity. Qed.

Lemma wrap_small z : (0 <= z < ULONG_MODULUS)%Z -> wrap z = z.
Proof. unfold wrap. apply Z.mod_small. Qed.

(** X9: a pass of the engine never loses a pending change and never
    changes a state silently: at every index a change flag that was up
    stays up, [currentState] differs afterwards only where the flag is
    up, the flag is raised only together with a flip of [currentState],
    and [lastChangeTime] is either kept or a value of the 32-bit
    clock.  The registry stays started on the same pins. *)
Theorem button_ISR_keeps_pending_changes (w : World) (pins : list byte)
    (cells : list Button) :
  started w pins cells ->
  exists (w' : World) (cells' : list Button),
    button_ISR w = Some (tt, w') /\
    started w' pins cells' /\
    forall (i : nat) (e : Button),
      nth_error cells i = Some e ->
      exists e' : Button,
        nth_error cells' i = Some e' /\
        (changeFlag e = true -> changeFlag e' = true) /\
        (currentState e' <> currentState e -> changeFlag e' = true) /\
        (changeFlag e' <> changeFlag e -> currentState e' = negb (currentState e)) /\
        (lastChangeTime e' = lastChangeTime e \/
         (0 <= lastChangeTime e' < 2 ^ 32)%Z).
Proof.
  intros Hst.
  destruct (button_ISR_entries w pins cells Hst) as (cells' & k' & Hrun & Hlen & Hnth).
  exists (with_cells_on cells' (board_at k' (board w)) w), cells'.
  split; [exact Hrun|].
  split; [exact (button_ISR_started w pins cells cells' k' Hst Hlen)|].
  intros i e He.
  destruct (nth_error pins i) as [pin|] eqn:Hp.
  - rewrite (Hnth i pin e Hp He).
    eexists. split; [reflexivity|].
    unfold isr_entry.
    destruct (Bool.eqb _ (currentState e)) eqn:Heq.
    + repeat split; auto; intros H; now elim H.
    + apply Bool.eqb_false_iff in Heq.
      destruct (quiet_window_passed _ _); cbn [currentState changeFlag lastChangeTime].
      * repeat split; auto.
        -- intros _. destruct (raw_state _ _ pin), (currentState e);
             try reflexivity; now elim Heq.
        -- right. apply wrap_range.
      * repeat split; auto; try (intros H; now elim H).
        right. apply wrap_range.
  - exfalso. apply nth_error_None in Hp.
    assert (i < length cells) by (apply nth_error_Some; congruence).
    rewrite (started_npins _ _ _ Hst) in Hp. rewrite (started_ncells _ _ _ Hst) in H.
    lia.
Qed.

Lemma button_ISR_keeps_pending_changes_witness :
  started (with_inputs 120 [3%Z] sample_pressed) [2; 3]%Z
          [mkButton true true 100; Button_ctor] /\
  exists (w' : World) (cells' : list Button),
    button_ISR (with_inputs 120 [3%Z] sample_pressed) = Some (tt, w') /\
    started w' [2; 3]%Z cells' /\
    exists e' : Button, nth_error cells' 0 = Some e' /\ changeFlag e' = true.
Proof.
  assert (Hst : started (with_inputs 120 [3%Z] sample_pressed) [2; 3]%Z
                        [mkButton true true 100; Button_ctor])
    by (split; reflexivity).
  split; [exact Hst|].
  destruct (button_ISR_keeps_pending_changes _ _ _ Hst) as (w' & cells' & Hrun & Hst' & Hk).
  exists w', cells'. split; [exact Hrun|]. split; [exact Hst'|].
  destruct (Hk 0 (mkButton true true 100) eq_refl) as (e' & He' & Hkeep & _).
  exists e'. split; [exact He' | exact (Hkeep eq_refl)].
Defined.

Lemma isr_scan_quiet h : forall pins cells k,
  length pins = length cells ->
  (forall i pin e, nth_error pins i = Some pin -> nth_error cells i = Some e ->
                   raw_state h (k + i) pin = currentState e) ->
  isr_scan h k pins cells = (cells, k + length cells).
Proof.
  induction pins as [|pin pins IH]; intros [|e cells] k Hlen Hq;
    simpl in Hlen; try discriminate.
  - simpl. now rewrite Nat.add_0_r.
  - cbn [isr_scan].
    assert (H0 : raw_state h k pin = currentState e).
    { rewrite <- (Nat.add_0_r k) at 1. apply (Hq 0); reflexivity. }
    unfold isr_cost, isr_entry. rewrite H0, Bool.eqb_reflx.
    rewrite IH.
    + simpl. f_equal. lia.
    + lia.
    + intros i p c Hp Hc. replace (k + 1 + i) with (k + S i) by lia.
      apply (Hq (S i)); assumption.
Qed.

(** X10: an interrupt that finds no line diverging is harmless: when
    every line reads the state its entry already holds, a pass of the
    engine leaves all four static members as they were, reads every pin
    once and never reads the clock. *)
Theorem button_ISR_without_divergence_is_noop (w : World) (pins : list byte)
    (cells : list Button) :
  started w pins cells ->
  (forall (i : nat) (pin : byte) (e : Button),
     nth_error pins i = Some pin -> nth_error cells i = Some e ->
     negb (pin_level (board w) (hw_tick (board w) + i) pin) = currentState e) ->
  button_ISR w
  = Some (tt, on_board (board_at (hw_tick (board w) + length pins) (board w)) w).
Proof.
  intros Hst Hq.
  rewrite (button_ISR_run _ _ _ Hst). cbv zeta.
  rewrite isr_scan_quiet.
  - simpl. unfold with_cells_on.
    rewrite with_cells_same by (simpl; apply (started_status _ _ _ Hst)).
    rewrite (started_ncells _ _ _ Hst), <- (started_npins _ _ _ Hst). reflexivity.
  - rewrite (started_npins _ _ _ Hst), (started_ncells _ _ _ Hst). reflexivity.
  - exact Hq.
Qed.

Lemma button_ISR_without_divergence_is_noop_witness :
  started (with_inputs 500 [2%Z] sample_pressed) [2; 3]%Z
          [mkButton true true 100; Button_ctor] /\
  option_map (fun r => statics (snd r)) (button_ISR (with_inputs 500 [2%Z] sample_pressed))
  = Some (statics sample_pressed).
Proof.
  assert (Hst : started (with_inputs 500 [2%Z] sample_pressed) [2; 3]%Z
                        [mkButton true true 100; Button_ctor])
    by (split; reflexivity).
  split; [exact Hst|].
  rewrite (button_ISR_without_divergence_is_noop _ _ _ Hst).
  - reflexivity.
  - intros [|[|i]] pin e Hp He; simpl in Hp, He; inversion Hp; inversion He;
      subst; try reflexivity.
    destruct i; discriminate.
Defined.

(** ** The engine on steady inputs *)

Lemma with_inputs_started t low w pins cells :
  started w pins cells -> started (with_inputs t low w) pins cells.
Proof. intros [Hb Hp Hs Hn Hc]. split; simpl; auto. Qed.

(** A pass at uptime [t] with the pins of [low] held down puts every
    entry through [debounce]. *)
Lemma isr_at_entries t low w pins cells :
  started w pins cells ->
  exists w' cells',
    isr_at t low w = Some w' /\
    started w' pins cells' /\
    forall i pin e,
      nth_error pins i = Some pin -> nth_error cells i = Some e ->
      nth_error cells' i = Some (debounce (pressed low pin) (wrap t) e).
Proof.
  intros Hst.
  pose proof (with_inputs_started t low w pins cells Hst) as Hst1.
  destruct (button_ISR_entries _ pins cells Hst1) as (cells' & k' & Hrun & Hlen & Hnth).
  eexists. exists cells'. split; [|split].
  - unfold isr_at, exec. rewrite Hrun. reflexivity.
  - exact (button_ISR_started _ pins cells cells' k' Hst1 Hlen).
  - intros i pin e Hp He. rewrite (Hnth i pin e Hp He). f_equal.
    unfold isr_entry, debounce, raw_state, pressed. simpl.
    rewrite Bool.negb_involutive. reflexivity.
Qed.

(** X11: away from the wrap of the clock the engine debounces by
    elapsed time: with the clock at [t], an entry last touched at
    [last <= t] and a line that reads the opposite of its state, the
    new state is accepted (and flagged) exactly when more than
    DEBOUNCE_DELAY = 50 ms have passed since [last] -- exactly 50 is
    not enough -- and [lastChangeTime] becomes [t] either way. *)
Theorem debounce_by_elapsed_time (w : World) (pins : list byte) (cells : list Button)
    (t : Z) (low : list byte) (i : nat) (pin : byte) (e : Button) :
  started w pins cells ->
  nth_error pins i = Some pin ->
  nth_error cells i = Some e ->
  pressed low pin <> currentState e ->
  (0 <= lastChangeTime e <= t)%Z ->
  (t < 2 ^ 32 - 50)%Z ->
  exists (w' : World) (cells' : list Button),
    isr_at t low w = Some w' /\
    started w' pins cells' /\
    nth_error cells' i
    = Some (if (50 <? t - lastChangeTime e)%Z
            then mkButton (pressed low pin) true t
            else mkButton (currentState e) (changeFlag e) t).
Proof.
  intros Hst Hp He Hdiv Hlast Ht.
  destruct (isr_at_entries t low w pins cells Hst) as (w' & cells' & Hrun & Hst' & Hnth).
  exists w', cells'. split; [exact Hrun|]. split; [exact Hst'|].
  rewrite (Hnth i pin e Hp He). f_equal.
  unfold debounce.
  destruct (Bool.eqb (pressed low pin) (currentState e)) eqn:Heq.
  - apply Bool.eqb_prop in Heq. contradiction.
  - assert (Hm : ULONG_MODULUS = (2 ^ 32)%Z) by reflexivity.
    unfold quiet_window_passed, ulong_add, DEBOUNCE_DELAY.
    rewrite !wrap_small by (rewrite Hm; lia).
    destruct (Z.ltb_spec (lastChangeTime e + 50) t), (Z.ltb_spec 50 (t - lastChangeTime e));
      try reflexivity; lia.
Qed.

Lemma debounce_by_elapsed_time_witness :
  started sample_pressed [2; 3]%Z [mkButton true true 100; Button_ctor] /\
  (exists (w' : World) (cells' : list Button),
     isr_at 150 [] sample_pressed = Some w' /\
     nth_error cells' 0 = Some (mkButton true true 150) /\
     started w' [2; 3]%Z cells') /\
  (exists (w' : World) (cells' : list Button),
     isr_at 151 [] sample_pressed = Some w' /\
     nth_error cells' 0 = Some (mkButton false true 151) /\
     started w' [2; 3]%Z cells').
Proof.
  split; [exact sample_pressed_ok|]. split.
  - destruct (debounce_by_elapsed_time sample_pressed [2; 3]%Z
                [mkButton true true 100; Button_ctor] 150 [] 0 2%Z
                (mkButton true true 100) sample_pressed_ok eq_refl eq_refl)
      as (w' & cells' & Hrun & Hst & Hnth).
    + discriminate.
    + simpl. lia.
    + lia.
    + exists w', cells'. split; [exact Hrun|]. split; [exact Hnth | exact Hst].
  - destruct (debounce_by_elapsed_time sample_pressed [2; 3]%Z
                [mkButton true true 100; Button_ctor] 151 [] 0 2%Z
                (mkButton true true 100) sample_pressed_ok eq_refl eq_refl)
      as (w' & cells' & Hrun & Hst & Hnth).
    + discriminate.
    + simpl. lia.
    + lia.
    + exists w', cells'. split; [exact Hrun|]. split; [exact Hnth | exact Hst].
Defined.

(** Interrupts that all come within the delay of a reference time
    [base] leave state and flag of an entry last touched in the same
    span as they are. *)
Lemma chatter_keeps_state (base : Z) (i : nat) (pin : byte) (pins : list byte) :
  (0 <= base)%Z -> (base + 100 < 2 ^ 32)%Z ->
  nth_error pins i = Some pin ->
  forall (evs : list (Z * list byte)) (w : World) (cells : list Button) (e : Button),
    started w pins cells ->
    nth_error cells i = Some e ->
    (base <= lastChangeTime e <= base + 50)%Z ->
    Forall (fun ev => (base <= fst ev <= base + 50)%Z) evs ->
    exists w' cells' e',
      isr_events evs w = Some w' /\
      started w' pins cells' /\
      nth_error cells' i = Some e' /\
      currentState e' = currentState e /\
      changeFlag e' = changeFlag e /\
      (base <= lastChangeTime e' <= base + 50)%Z.
Proof.
  intros Hb0 Hb1 Hp.
  assert (Hm : ULONG_MODULUS = (2 ^ 32)%Z) by reflexivity.
  induction evs as [|[t low] evs IH]; intros w cells e Hst He Hlast Hevs.
  - exists w, cells, e. simpl.
    split; [reflexivity|]. split; [exact Hst|]. split; [exact He|].
    split; [reflexivity|]. split; [reflexivity | exact Hlast].
  - inversion Hevs as [|ev evs' Ht Hrest]; subst. simpl in Ht.
    destruct (isr_at_entries t low w pins cells Hst) as (w1 & cells1 & Hrun & Hst1 & Hnth).
    specialize (Hnth i pin e Hp He).
    assert (Hstep : currentState (debounce (pressed low pin) (wrap t) e) = currentState e /\
                    changeFlag (debounce (pressed low pin) (wrap t) e) = changeFlag e /\
                    (base <= lastChangeTime (debounce (pressed low pin) (wrap t) e)
                     <= base + 50)%Z).
    { unfold debounce.
      destruct (Bool.eqb (pressed low pin) (currentState e)); [auto|].
      unfold quiet_window_passed, ulong_add, DEBOUNCE_DELAY.
      rewrite !wrap_small by (rewrite Hm; lia).
      destruct (Z.ltb_spec (lastChangeTime e + 50) t); [lia|].
      simpl. auto. }
    destruct Hstep as (Hc & Hf & Hl).
    destruct (IH w1 cells1 _ Hst1 Hnth Hl Hrest)
      as (w' & cells' & e' & Hrun' & Hst' & Hnth' & Hc' & Hf' & Hl').
    exists w', cells', e'. cbn [isr_events]. rewrite Hrun.
    split; [exact Hrun'|]. split; [exact Hst'|]. split; [exact Hnth'|].
    split; [congruence|]. split; [congruence | exact Hl'].
Qed.

(** X12: contact bounce is suppressed: however many interrupts
    arrive within DEBOUNCE_DELAY of the entry's [lastChangeTime], and
    whatever the line reads at each of them, [currentState] and
    [changeFlag] of the entry stay as they are (away from the wrap of
    the clock). *)
Theorem bounce_within_delay_is_suppressed (w : World) (pins : list byte)
    (cells : list Button) (i : nat) (pin : byte) (e : Button)
    (evs : list (Z * list byte)) :
  started w pins cells ->
  nth_error pins i = Some pin ->
  nth_error cells i = Some e ->
  (0 <= lastChangeTime e)%Z ->
  (lastChangeTime e + 100 < 2 ^ 32)%Z ->
  Forall (fun ev => (lastChangeTime e <= fst ev <= lastChangeTime e + 50)%Z) evs ->
  exists (w' : World) (cells' : list Button) (e' : Button),
    isr_events evs w = Some w' /\
    started w' pins cells' /\
    nth_error cells' i = Some e' /\
    currentState e' = currentState e /\
    changeFlag e' = changeFlag e.
Proof.
  intros Hst Hp He H0 H1 Hevs.
  destruct (chatter_keeps_state (lastChangeTime e) i pin pins H0 H1 Hp evs w cells e
              Hst He ltac:(lia) Hevs)
    as (w' & cells' & e' & Hrun & Hst' & Hnth & Hc & Hf & _).
  exists w', cells', e'. auto.
Qed.

Lemma bounce_within_delay_is_suppressed_witness :
  started sample_acknowledged [2; 3]%Z [mkButton true false 100; Button_ctor] /\
  exists (w' : World) (cells' : list Button) (e' : Button),
    isr_events [(110, []); (125, [2]); (150, [])]%Z sample_acknowledged = Some w' /\
    nth_error cells' 0 = Some e' /\
    currentState e' = true /\
    changeFlag e' = false /\
    started w' [2; 3]%Z cells'.
Proof.
  split; [exact sample_acknowledged_ok|].
  destruct (bounce_within_delay_is_suppressed sample_acknowledged [2; 3]%Z
              [mkButton true false 100; Button_ctor] 0 2%Z (mkButton true false 100)
              [(110, []); (125, [2]); (150, [])]%Z
              sample_acknowledged_ok eq_refl eq_refl)
    as (w' & cells' & e' & Hrun & Hst & Hnth & Hc & Hf).
  - simpl. lia.
  - simpl. lia.
  - repeat constructor; simpl; lia.
  - exists w', cells', e'.
    split; [exact Hrun|]. split; [exact Hnth|]. split; [exact Hc|].
    split; [exact Hf | exact Hst].
Defined.

(** ** The engine and the accessors together *)

Lemma started_clear_if w pins cells id clear :
  started w pins cells ->
  started (clear_if clear id w) pins
          (if clear then list_upd id (set_changeFlag false) cells else cells).
Proof.
  intros Hst. destruct clear; simpl; auto using started_clear_changeFlag.
Qed.

Lemma clicked_started w pins cells id e clear :
  started w pins cells -> nth_error cells id = Some e ->
  clicked id clear w = Some (changeFlag e && currentState e, clear_if clear id w).
Proof.
  intros Hst He.
  rewrite clicked_eq, changed_eq,
    (accessor_outcome_started changeFlag _ _ _ _ _ clear Hst He).
  destruct (changeFlag e); [|reflexivity].
  pose proof (started_clear_if w pins cells id clear Hst) as Hst'.
  rewrite down_eq. destruct clear.
  - rewrite (accessor_outcome_started currentState _ _ _ id (set_changeFlag false e)
               false Hst').
    + reflexivity.
    + rewrite nth_error_list_upd_same, He. reflexivity.
  - rewrite (accessor_outcome_started currentState _ _ _ id e false Hst' He).
    reflexivity.
Qed.

(** X13: a press the engine accepts is reported by [clicked] exactly
    once: after a pass that finds the line of a released button held
    down with the quiet window passed, [clicked(id, true)] answers true,
    a second [clicked(id, true)] answers false and changes nothing, and
    [down] keeps answering true. *)
Theorem accepted_press_is_clicked_once (w : World) (pins : list byte)
    (cells : list Button) (t : Z) (low : list byte) (id : nat) (pin : byte)
    (e : Button) :
  started w pins cells ->
  nth_error pins id = Some pin ->
  nth_error cells id = Some e ->
  currentState e = false ->
  pressed low pin = true ->
  quiet_window_passed (lastChangeTime e) (wrap t) = true ->
  exists w1 w2 : World,
    isr_at t low w = Some w1 /\
    clicked id true w1 = Some (true, w2) /\
    clicked id true w2 = Some (false, w2) /\
    down id false w2 = Some (true, w2).
Proof.
  intros Hst Hp He Hcur Hlow Hquiet.
  destruct (isr_at_entries t low w pins cells Hst) as (w1 & cells1 & Hrun & Hst1 & Hnth).
  specialize (Hnth id pin e Hp He).
  assert (Hd : debounce (pressed low pin) (wrap t) e = mkButton true true (wrap t)).
  { unfold debounce. rewrite Hlow, Hcur, Hquiet. reflexivity. }
  rewrite Hd in Hnth.
  pose proof (started_clear_changeFlag w1 pins cells1 id Hst1) as Hst2.
  assert (Hnth2 : nth_error (list_upd id (set_changeFlag false) cells1) id
                  = Some (mkButton true false (wrap t))).
  { rewrite nth_error_list_upd_same, Hnth. reflexivity. }
  assert (Hsame : clear_changeFlag id (clear_changeFlag id w1) = clear_changeFlag id w1).
  { apply (clear_changeFlag_lowered _ _ id (started_status _ _ _ Hst2)).
    intros e0 He0. rewrite Hnth2 in He0. inversion He0. reflexivity. }
  exists w1, (clear_changeFlag id w1).
  split; [exact Hrun|]. split; [|split].
  - rewrite (clicked_started w1 pins cells1 id _ true Hst1 Hnth). reflexivity.
  - rewrite (clicked_started _ pins _ id _ true Hst2 Hnth2). simpl.
    now rewrite Hsame.
  - rewrite down_eq.
    rewrite (accessor_outcome_started currentState _ _ _ _ _ false Hst2 Hnth2).
    reflexivity.
Qed.

Lemma accepted_press_is_clicked_once_witness :
  started sample_started [2; 3]%Z [Button_ctor; Button_ctor] /\
  exists w1 w2 : World,
    isr_at 100 [2%Z] sample_started = Some w1 /\
    clicked 0 true w1 = Some (true, w2) /\
    clicked 0 true w2 = Some (false, w2) /\
    down 0 false w2 = Some (true, w2).
Proof.
  split; [exact sample_started_ok|].
  exact (accepted_press_is_clicked_once sample_started [2; 3]%Z
           [Button_ctor; Button_ctor] 100 [2%Z] 0 2%Z Button_ctor
           sample_started_ok eq_refl eq_refl eq_refl eq_refl eq_refl).
Defined.

(** X14: [clicked] with the clear flag swallows a pending release:
    on a button that is up with a change pending, [clicked(id, true)]
    answers false and yet lowers the change flag, so that [changed]
    answers false afterwards; only [clicked(id, false)] leaves the
    release for a later reader. *)
Theorem clicked_swallows_pending_release (w : World) (pins : list byte)
    (cells : list Button) (id : nat) (e : Button) :
  started w pins cells ->
  nth_error cells id = Some e ->
  currentState e = false ->
  changeFlag e = true ->
  exists w' : World,
    clicked id true w = Some (false, w') /\
    changed id false w' = Some (false, w') /\
    clicked id false w = Some (false, w) /\
    changed id false w = Some (true, w).
Proof.
  intros Hst He Hcur Hflag.
  exists (clear_changeFlag id w).
  pose proof (started_clear_changeFlag w pins cells id Hst) as Hst'.
  assert (Hnth' : nth_error (list_upd id (set_changeFlag false) cells) id
                  = Some (set_changeFlag false e)).
  { rewrite nth_error_list_upd_same, He. reflexivity. }
  split; [|split; [|split]].
  - rewrite (clicked_started w pins cells id e true Hst He), Hcur, Hflag. reflexivity.
  - rewrite changed_eq,
      (accessor_outcome_started changeFlag _ _ _ _ _ false Hst' Hnth'). reflexivity.
  - rewrite (clicked_started w pins cells id e false Hst He), Hcur, Hflag. reflexivity.
  - rewrite changed_eq,
      (accessor_outcome_started changeFlag _ _ _ _ _ false Hst He), Hflag. reflexivity.
Qed.

Lemma clicked_swallows_pending_release_witness :
  started (with_cells [mkButton false true 200; Button_ctor] sample_pressed)
          [2; 3]%Z [mkButton false true 200; Button_ctor] /\
  exists w' : World,
    clicked 0 true (with_cells [mkButton false true 200; Button_ctor] sample_pressed)
    = Some (false, w') /\
    changed 0 false w' = Some (false, w').
Proof.
  assert (Hst : started (with_cells [mkButton false true 200; Button_ctor] sample_pressed)
                        [2; 3]%Z [mkButton false true 200; Button_ctor])
    by (split; reflexivity).
  split; [exact Hst|].
  destruct (clicked_swallows_pending_release _ _ _ 0 (mkButton false true 200)
              Hst eq_refl eq_refl eq_refl) as (w' & Hc & Hch & _).
  exists w'. split; [exact Hc | exact Hch].
Defined.
